(** * Playback core of the UR5 trajectory visualizer

    A shallow embedding of [UR5Visualizer] from [src/visualize.py]: the run
    store, the playback fields, the operator callbacks ([add_run],
    [switch_run], [seek], [toggle], [restart], [save]) and the body of the
    scheduling loop of [run].

    Conventions.
    - Python floats and numpy float64 scalars are IEEE binary64 numbers:
      they are primitive floats here.  The runs hold numpy arrays: [traj],
      [torques] and [errors] are two-dimensional float64 arrays (a list of
      rows and a column count; an array built from no rows at all has no
      column), [times] is a one-dimensional one.  So [times[1] - times[0]] is
      a numpy scalar, while the literals [0.01] and [1.0] are Python floats:
      dividing a Python float by zero raises, dividing a numpy scalar by
      zero gives an infinity or a NaN.
    - [time.sleep] refuses a NaN, a negative duration and one that does not
      fit its clock (CPython counts nanoseconds in 64 bits).
    - Python integers are unbounded: [current_idx] and the argument of
      [seek] are in [Z].
    - [self.runs] is a Python dict, which keeps insertion order: it is an
      association list whose update keeps the position of an existing key.
    - Every method mutates [self], may call the rendering, plotting or
      file collaborators, and may raise.  A method is a function from the
      object's fields to the new fields, the collaborator calls made in order,
      and either the returned value or the exception raised.  Fields assigned
      before an exception stay assigned, as in Python.
    - [run] loops forever: [run_iteration] is one pass through the body of
      its [while True:], and [run_loop n] the first [n] passes.  Callbacks
      are taken to run between passes, one at a time. *)

From Stdlib Require Import ZArith List String Bool Lia.
From Stdlib Require Import Floats.PrimFloat.
Import ListNotations.

Set Warnings "-inexact-float".

Open Scope string_scope.
Open Scope list_scope.
Open Scope Z_scope.

(** ** Python sequences and dicts *)

Module Py.

(** [len(l)] as a Python integer. *)
Definition len {A : Type} (l : list A) : Z := Z.of_nat (List.length l).

(** [l[i]]: indices [0 .. len-1] count from the front, indices
    [-len .. -1] count from the back, anything else is an [IndexError]
    ([None]). *)
Definition index {A : Type} (l : list A) (i : Z) : option A :=
  if (0 <=? i) && (i <? len l) then nth_error l (Z.to_nat i)
  else if (- len l <=? i) && (i <? 0) then nth_error l (Z.to_nat (len l + i))
  else None.

(** [d[k] = v] on an insertion-ordered dict: a present key keeps its place
    and gets the new value, an absent key is appended. *)
Fixpoint dict_set {V : Type} (k : string) (v : V) (d : list (string * V))
  : list (string * V) :=
  match d with
  | [] => [(k, v)]
  | (k', v') :: d' =>
      if String.eqb k' k then (k', v) :: d' else (k', v') :: dict_set k v d'
  end.

(** [d[k]] for a key known to the caller, [None] when [k not in d]. *)
Fixpoint dict_get {V : Type} (k : string) (d : list (string * V)) : option V :=
  match d with
  | [] => None
  | (k', v') :: d' => if String.eqb k' k then Some v' else dict_get k d'
  end.

(** [k in d]. *)
Definition dict_mem {V : Type} (k : string) (d : list (string * V)) : bool :=
  match dict_get k d with Some _ => true | None => false end.

(** [list(d.keys())]. *)
Definition dict_keys {V : Type} (d : list (string * V)) : list string :=
  map fst d.

End Py.

(** ** Data model *)

(** A row of a trajectory, torque or error array. *)
Definition Vec : Type := list float.

(** A two-dimensional float64 array of shape [(len rows, ncols)]; numpy
    keeps every row [ncols] long.  As a sequence it is the sequence of its
    rows. *)
Record Array : Type := mkArray {
  rows : list Vec;
  ncols : nat
}.
Coercion rows : Array >-> list.

(** A number as Python sees it: a built-in float or a numpy float64. *)
Inductive Number : Type :=
| PyFloat (x : float)
| NpFloat (x : float).


(** The tuple [(traj, torques, errors, times)] stored under a run name. *)
Record Run : Type := mkRun {
  r_traj : Array;
  r_torques : Array;
  r_errors : Array;
  r_times : list float
}.

(** The fields of a [UR5Visualizer] that its methods read or write.  The
    widgets are kept as the attributes the methods assign: the options and
    the value of [run_dropdown], the label of [play_btn], and the plots held
    in [plot_handles] (a plot is known by its title). *)
Record Viz : Type := mkViz {
  is_playing : bool;
  trajectory : option Array;
  torques : option Array;
  errors : option Array;
  times : option (list float);
  current_idx : Z;
  dt : Number;
  speed : float;
  runs : list (string * Run);
  plot_handles : list string;
  dropdown_options : list string;
  dropdown_value : string;
  play_btn_name : string
}.

(** Calls made on the collaborators, in the order they happen. *)
Inductive Event : Type :=
| UpdateCfg (cfg : Vec)          (* self.robot.update_cfg(cfg) *)
| Sleep (seconds : float)        (* time.sleep(seconds) *)
| RemovePlot (title : string)    (* h.remove() *)
| AddPlotly (title : string)     (* self.server.gui.add_plotly(figure=fig, aspect=1.5) *)
| Mkdir                          (* out.mkdir(exist_ok=True) *)
| Subplots                       (* plt.subplots(figsize=(10, 6)) *)
| Plot (x : option (list float)) (y : list float)
                                 (* ax.plot(x, y, label=...) *)
| SaveFig (file : string)        (* the labels, legend and grid, then
                                    fig.savefig(out / file, dpi=150) and
                                    plt.close() *)
| OpenCsv                        (* open(out / 'simulation.csv', 'w', newline='') *)
| WriteCsv (lines : list Vec)    (* csv.writer(f).writerows(lines) *)
| PrintSaved.                    (* print(f"Saved to {out}") *)

Inductive Exn : Type :=
| IndexError
| TypeError
| ValueError
| OverflowError
| ZeroDivisionError
| OSError.

Inductive Outcome (A : Type) : Type :=
| Returned (a : A)
| Raised (e : Exn).
Arguments Returned {A} a.
Arguments Raised {A} e.

(** The default sample interval, the literal [0.01] of [__init__] and
    [switch_run]; the loop's poll interval is the same literal. *)
Definition default_dt : Number := PyFloat 0.01%float.
Definition poll_interval : float := 0.01%float.

(** The directory [out] given to [save], together with what the world
    outside answers while [save] runs: for each call on the file system, on
    matplotlib or on the console, the exception it raises, if any. *)
Record Outside : Type := mkOutside {
  refuses : Event -> option Exn
}.

(** ** Field assignments *)

Definition set_is_playing (b : bool) (s : Viz) : Viz :=
  mkViz b (trajectory s) (torques s) (errors s) (times s) (current_idx s)
        (dt s) (speed s) (runs s) (plot_handles s) (dropdown_options s)
        (dropdown_value s) (play_btn_name s).

Definition set_active (r : Run) (s : Viz) : Viz :=
  mkViz (is_playing s) (Some (r_traj r)) (Some (r_torques r))
        (Some (r_errors r)) (Some (r_times r)) (current_idx s)
        (dt s) (speed s) (runs s) (plot_handles s) (dropdown_options s)
        (dropdown_value s) (play_btn_name s).

Definition set_current_idx (i : Z) (s : Viz) : Viz :=
  mkViz (is_playing s) (trajectory s) (torques s) (errors s) (times s) i
        (dt s) (speed s) (runs s) (plot_handles s) (dropdown_options s)
        (dropdown_value s) (play_btn_name s).

Definition set_dt (d : Number) (s : Viz) : Viz :=
  mkViz (is_playing s) (trajectory s) (torques s) (errors s) (times s)
        (current_idx s) d (speed s) (runs s) (plot_handles s)
        (dropdown_options s) (dropdown_value s) (play_btn_name s).


Definition set_runs (d : list (string * Run)) (s : Viz) : Viz :=
  mkViz (is_playing s) (trajectory s) (torques s) (errors s) (times s)
        (current_idx s) (dt s) (speed s) d (plot_handles s)
        (dropdown_options s) (dropdown_value s) (play_btn_name s).

Definition set_plot_handles (h : list string) (s : Viz) : Viz :=
  mkViz (is_playing s) (trajectory s) (torques s) (errors s) (times s)
        (current_idx s) (dt s) (speed s) (runs s) h
        (dropdown_options s) (dropdown_value s) (play_btn_name s).

Definition set_dropdown_options (o : list string) (s : Viz) : Viz :=
  mkViz (is_playing s) (trajectory s) (torques s) (errors s) (times s)
        (current_idx s) (dt s) (speed s) (runs s) (plot_handles s)
        o (dropdown_value s) (play_btn_name s).

Definition set_dropdown_value (v : string) (s : Viz) : Viz :=
  mkViz (is_playing s) (trajectory s) (torques s) (errors s) (times s)
        (current_idx s) (dt s) (speed s) (runs s) (plot_handles s)
        (dropdown_options s) v (play_btn_name s).

Definition set_play_btn_name (v : string) (s : Viz) : Viz :=
  mkViz (is_playing s) (trajectory s) (torques s) (errors s) (times s)
        (current_idx s) (dt s) (speed s) (runs s) (plot_handles s)
        (dropdown_options s) (dropdown_value s) v.

(** ** The method monad: fields, collaborator calls, exceptions *)

Definition M (A : Type) : Type := Viz -> Viz * list Event * Outcome A.

Definition ret {A : Type} (a : A) : M A := fun s => (s, [], Returned a).

Definition bind {A B : Type} (m : M A) (k : A -> M B) : M B :=
  fun s =>
    match m s with
    | (s1, tr1, Returned a) =>
        match k a s1 with
        | (s2, tr2, o) => (s2, tr1 ++ tr2, o)
        end
    | (s1, tr1, Raised e) => (s1, tr1, Raised e)
    end.

Definition get : M Viz := fun s => (s, [], Returned s).
Definition assign (f : Viz -> Viz) : M unit := fun s => (f s, [], Returned tt).
Definition call (e : Event) : M unit := fun s => (s, [e], Returned tt).
Definition raise {A : Type} (e : Exn) : M A := fun s => (s, [], Raised e).

Declare Scope method_scope.
Delimit Scope method_scope with method.
Notation "x <- m ;; k" := (bind m (fun x => k))
  (at level 61, m at next level, right associativity) : method_scope.
Notation "m ;; k" := (bind m (fun _ => k))
  (at level 61, right associativity) : method_scope.
Open Scope method_scope.

(** Projections of what a method call leaves behind. *)
Definition state_of {A : Type} (r : Viz * list Event * Outcome A) : Viz :=
  fst (fst r).
Definition trace_of {A : Type} (r : Viz * list Event * Outcome A) : list Event :=
  snd (fst r).
Definition outcome_of {A : Type} (r : Viz * list Event * Outcome A) : Outcome A :=
  snd r.

(** [seq[i]], raising [IndexError] out of range. *)
Definition subscript {A : Type} (l : list A) (i : Z) : M A :=
  match Py.index l i with
  | Some a => ret a
  | None => raise IndexError
  end.

(** [self.trajectory], which supports [len] and subscripting only when it
    is not [None]. *)
Definition the_trajectory : M Array :=
  s <- get ;;
  match trajectory s with
  | Some traj => ret traj
  | None => raise TypeError
  end.

(** [self.torques] and [self.errors], which are subscripted in the same
    way. *)
Definition the_torques : M Array :=
  s <- get ;;
  match torques s with
  | Some a => ret a
  | None => raise TypeError
  end.

Definition the_errors : M Array :=
  s <- get ;;
  match errors s with
  | Some a => ret a
  | None => raise TypeError
  end.

(** [a[:, i]]: column [i] of a two-dimensional array, an [IndexError] when
    the array has no such column (negative [i] counts from the last
    column). *)
Definition column (a : Array) (i : Z) : M (list float) :=
  let n := Z.of_nat (ncols a) in
  if (0 <=? i) && (i <? n) then
    ret (map (fun r => nth (Z.to_nat i) r 0%float) (rows a))
  else if (- n <=? i) && (i <? 0) then
    ret (map (fun r => nth (Z.to_nat (n + i)) r 0%float) (rows a))
  else raise IndexError.

(** What [time.sleep(d)] raises, if anything.  CPython turns the duration
    into a 64-bit count of nanoseconds, rounding away from zero: a NaN is a
    [ValueError], a count outside [-2^63, 2^63) an [OverflowError], and a
    negative count a [ValueError]. *)
Definition sleep_error (d : float) : option Exn :=
  if PrimFloat.is_nan d then Some ValueError
  else
    let ns := PrimFloat.mul d 1e9%float in
    if PrimFloat.leb (-9223372036854775808)%float ns
       && PrimFloat.ltb ns 9223372036854775808%float
    then if PrimFloat.ltb ns 0%float then Some ValueError else None
    else Some OverflowError.

(** [time.sleep(d)]. *)
Definition time_sleep (d : float) : M unit :=
  match sleep_error d with
  | Some e => raise e
  | None => call (Sleep d)
  end.

(** [self.dt / self.speed], [speed] being a Python float: a Python float
    divided by zero is a [ZeroDivisionError]; a numpy scalar divided by zero
    is the IEEE quotient (with a warning). *)
Definition step_duration (d : Number) (v : float) : Outcome float :=
  match d with
  | PyFloat x =>
      if PrimFloat.eqb v 0%float then Raised ZeroDivisionError
      else Returned (PrimFloat.div x v)
  | NpFloat x => Returned (PrimFloat.div x v)
  end.

(** [for x in xs: body(x)]. *)
Fixpoint for_each {A : Type} (xs : list A) (body : A -> M unit) : M unit :=
  match xs with
  | [] => ret tt
  | x :: xs' => body x ;; for_each xs' body
  end.

(** ** The visualizer's methods *)

(** [__init__]: the fields before any run is added.  The gain sliders are
    read by no method and are left out. *)
Definition init : Viz :=
  {| is_playing := false;
     trajectory := None; torques := None; errors := None; times := None;
     current_idx := 0;
     dt := default_dt;
     speed := 1%float;
     runs := [];
     plot_handles := [];
     dropdown_options := ["<no runs available>"];
     dropdown_value := "<no runs available>";
     play_btn_name := "Play" |}.

(** [range(6)]. *)
Definition range6 : list Z := [0; 1; 2; 3; 4; 5].

(** [self.plot_handles.append(self.server.gui.add_plotly(figure=fig,
    aspect=1.5))]. *)
Definition add_plot (title : string) : M unit :=
  call (AddPlotly title) ;;
  s <- get ;;
  assign (set_plot_handles (plot_handles s ++ [title])).

(** [update_plots(name)]: drop the old plots (a failing [remove] is
    swallowed), then, when a trajectory is loaded, build and add the three
    figures in turn.  Each trace of a figure takes a column of the loaded
    array; a figure is added once all its traces are built. *)
Definition update_plots (name : string) : M unit :=
  s <- get ;;
  for_each (plot_handles s) (fun h => call (RemovePlot h)) ;;
  assign (set_plot_handles []) ;;
  s <- get ;;
  match trajectory s with
  | None => ret tt
  | Some _ =>
      for_each range6
        (fun i => a <- the_trajectory ;; _ <- column a i ;; ret tt) ;;
      add_plot (String.append name ": Joint Angles") ;;
      for_each range6
        (fun i => a <- the_torques ;; _ <- column a i ;; ret tt) ;;
      add_plot (String.append name ": Joint Torques") ;;
      a <- the_errors ;;
      _ <- column a 0 ;;
      a <- the_errors ;;
      _ <- column a 1 ;;
      add_plot (String.append name ": Tracking Errors")
  end.

(** The right-hand side of
    [self.dt = times[1] - times[0] if len(times) > 1 else 0.01]. *)
Definition sample_interval (ts : list float) : M Number :=
  if 1 <? Py.len ts then
    t1 <- subscript ts 1 ;;
    t0 <- subscript ts 0 ;;
    ret (NpFloat (PrimFloat.sub t1 t0))
  else ret default_dt.

(** [switch_run(name)]. *)
Definition switch_run (name : string) : M unit :=
  s <- get ;;
  match Py.dict_get name (runs s) with
  | None => ret tt
  | Some r =>
      assign (set_active r) ;;
      d <- sample_interval (r_times r) ;;
      assign (set_dt d) ;;
      assign (set_current_idx 0) ;;
      cfg <- subscript (r_traj r) 0 ;;
      call (UpdateCfg cfg) ;;
      update_plots name
  end.

(** [add_run(name, traj, torques, errors, times)]. *)
Definition add_run (name : string) (r : Run) : M unit :=
  s <- get ;;
  assign (set_runs (Py.dict_set name r (runs s))) ;;
  s <- get ;;
  assign (set_dropdown_options (Py.dict_keys (runs s))) ;;
  s <- get ;;
  if Py.len (runs s) =? 1 then
    assign (set_dropdown_value name) ;;
    switch_run name
  else ret tt.

(** [seek(idx)]. *)
Definition seek (idx : Z) : M unit :=
  s <- get ;;
  match trajectory s with
  | Some traj =>
      if negb (is_playing s) then
        let idx := Z.max 0 (Z.min idx (Py.len traj - 1)) in
        assign (set_current_idx idx) ;;
        traj' <- the_trajectory ;;
        cfg <- subscript traj' idx ;;
        call (UpdateCfg cfg)
      else ret tt
  | None => ret tt
  end.

(** [toggle()]. *)
Definition toggle : M unit :=
  s <- get ;;
  assign (set_is_playing (negb (is_playing s))) ;;
  s <- get ;;
  assign (set_play_btn_name (if is_playing s then "Pause" else "Play")).

(** [restart()]. *)
Definition restart : M unit :=
  assign (set_current_idx 0) ;;
  s <- get ;;
  match trajectory s with
  | Some traj =>
      cfg <- subscript traj 0 ;;
      call (UpdateCfg cfg)
  | None => ret tt
  end.

(** A call [save] makes outside the visualizer: it raises what the world
    answers, or happens. *)
Definition attempt (out : Outside) (e : Event) : M unit :=
  match refuses out e with
  | Some x => raise x
  | None => call e
  end.

(** [ax.plot(self.times, a[:, i], label=...)]. *)
Definition plot_column (out : Outside) (a : Array) (i : Z) : M unit :=
  s <- get ;;
  col <- column a i ;;
  attempt out (Plot (times s) col).

(** [save(out)]: nothing when no trajectory is loaded; otherwise the
    directory, the three figures (one line per column, then the file) and
    the CSV of the trajectory's rows. *)
Definition save (out : Outside) : M unit :=
  s <- get ;;
  match trajectory s with
  | None => ret tt
  | Some _ =>
      attempt out Mkdir ;;
      attempt out Subplots ;;
      for_each range6 (fun i => a <- the_trajectory ;; plot_column out a i) ;;
      attempt out (SaveFig "joint_angles.png") ;;
      attempt out Subplots ;;
      for_each range6 (fun i => a <- the_torques ;; plot_column out a i) ;;
      attempt out (SaveFig "joint_torques.png") ;;
      attempt out Subplots ;;
      a <- the_errors ;;
      plot_column out a 0 ;;
      a <- the_errors ;;
      plot_column out a 1 ;;
      attempt out (SaveFig "tracking_errors.png") ;;
      attempt out OpenCsv ;;
      a <- the_trajectory ;;
      attempt out (WriteCsv (rows a)) ;;
      attempt out PrintSaved
  end.

(** [time.sleep(self.dt / self.speed)]: both fields are read when the
    sleep starts; the division or the sleep may raise. *)
Definition sleep_step : M unit :=
  s <- get ;;
  match step_duration (dt s) (speed s) with
  | Returned d => time_sleep d
  | Raised e => raise e
  end.

(** One pass through the body of [while True:] in [run]. *)
Definition run_iteration : M unit :=
  s <- get ;;
  (if is_playing s && match trajectory s with Some _ => true | None => false end then
     traj <- the_trajectory ;;
     s <- get ;;
     if current_idx s <? Py.len traj then
       sleep_step ;;
       traj <- the_trajectory ;;
       s <- get ;;
       cfg <- subscript traj (current_idx s) ;;
       call (UpdateCfg cfg) ;;
       s <- get ;;
       assign (set_current_idx (current_idx s + 1)) ;;
       sleep_step
     else
       assign (set_is_playing false) ;;
       assign (set_play_btn_name "Play")
   else ret tt) ;;
  time_sleep poll_interval.

(** The first [n] passes of the loop; the loop itself never returns. *)
Fixpoint run_loop (n : nat) : M unit :=
  match n with
  | O => ret tt
  | S n' => run_iteration ;; run_loop n'
  end.

(** ** Scenario of the specification: run A *)

Definition row (x : float) : Vec := [x; x; x; x; x; x].

Definition runA : Run :=
  {| r_traj := mkArray [row 0%float; row 1%float; row 2%float] 6;
     r_torques := mkArray [row 0%float; row 0%float; row 0%float] 6;
     r_errors :=
       mkArray [[0%float; 0%float]; [0%float; 0%float]; [0%float; 0%float]] 2;
     r_times := [0%float; 0.1%float; 0.2%float] |}.

(** The array built from no row: no row and no column. *)
Definition no_rows : Array := mkArray [] 0.

Definition run_empty : Run :=
  {| r_traj := no_rows; r_torques := no_rows; r_errors := no_rows;
     r_times := [] |}.

(** Titles of the three live plots of a run. *)
Definition plot_titles (name : string) : list string :=
  [String.append name ": Joint Angles";
   String.append name ": Joint Torques";
   String.append name ": Tracking Errors"].

(** The sample interval computed by [switch_run], in closed form. *)
Definition interval_of (ts : list float) : Number :=
  match ts with
  | t0 :: t1 :: _ => NpFloat (PrimFloat.sub t1 t0)
  | _ => default_dt
  end.

(** What taking the columns [0 .. k-1] of a loaded array raises, if
    anything. *)
Definition slice_error (k : nat) (a : option Array) : option Exn :=
  match a with
  | None => Some TypeError
  | Some arr => if (k <=? ncols arr)%nat then None else Some IndexError
  end.

(** The plots [update_plots] gets to add, and how it ends: the figure of
    the joint angles needs six columns of the trajectory, the one of the
    torques six columns of the torques, the one of the errors two columns of
    the errors. *)
Definition plots_drawn (name : string) (s : Viz) : list string * Outcome unit :=
  match trajectory s with
  | None => ([], Returned tt)
  | Some _ =>
      match slice_error 6 (trajectory s) with
      | Some e => ([], Raised e)
      | None =>
          match slice_error 6 (torques s) with
          | Some e => (firstn 1 (plot_titles name), Raised e)
          | None =>
              match slice_error 2 (errors s) with
              | Some e => (firstn 2 (plot_titles name), Raised e)
              | None => (plot_titles name, Returned tt)
              end
          end
      end
  end.

(** How the step sleep [time.sleep(self.dt / self.speed)] ends in a
    state: the duration slept, or the exception of the division or of the
    sleep. *)
Definition step_wait (s : Viz) : Outcome float :=
  match step_duration (dt s) (speed s) with
  | Returned d =>
      match sleep_error d with
      | Some e => Raised e
      | None => Returned d
      end
  | Raised e => Raised e
  end.

(** The index [seek] moves to: [max(0, min(idx, len(self.trajectory) - 1))]. *)
Definition clamp (idx : Z) (traj : list Vec) : Z :=
  Z.max 0 (Z.min idx (Py.len traj - 1)).

(** What can happen to a visualizer: a method call, or one pass of the
    loop of [run]. *)
Inductive Action : Type :=
| AddRun (name : string) (r : Run)
| SwitchRun (name : string)
| Seek (idx : Z)
| Toggle
| Restart
| UpdatePlots (name : string)
| Save (out : Outside)
| Tick.

Definition perform (a : Action) : M unit :=
  match a with
  | AddRun name r => add_run name r
  | SwitchRun name => switch_run name
  | Seek idx => seek idx
  | Toggle => toggle
  | Restart => restart
  | UpdatePlots name => update_plots name
  | Save out => save out
  | Tick => run_iteration
  end.

(** The cursor is on a sample of the loaded trajectory, or one past the
    last one; with nothing loaded it is not negative. *)
Definition cursor_in_range (s : Viz) : Prop :=
  0 <= current_idx s /\
  forall traj, trajectory s = Some traj -> current_idx s <= Py.len traj.

(** The cursor is on a sample of the loaded trajectory. *)
Definition cursor_on_sample (s : Viz) : Prop :=
  forall traj, trajectory s = Some traj ->
               0 <= current_idx s <= Py.len traj - 1.

(** The store is empty, or its only key is [name]: the stores on which
    [runs[name] = ...] leaves exactly one run. *)
Definition sole_or_empty (name : string) (d : list (string * Run)) : bool :=
  match d with
  | [] => true
  | [(k, _)] => String.eqb k name
  | _ => false
  end.

(** Run A selected, idle at sample 0. *)
Definition vizA : Viz := state_of (add_run "A" runA init).

(** Run A selected and playing from sample 0. *)
Definition vizA_playing : Viz := state_of (toggle vizA).

(** Run A selected, the cursor moved to sample 1, then playing. *)
Definition vizA_playing_at_1 : Viz := state_of (toggle (state_of (seek 1 vizA))).

(** Run A selected, an empty run B added, then B picked in the dropdown. *)
Definition vizA_empty_selected : Viz :=
  state_of (switch_run "B" (state_of (add_run "B" run_empty vizA))).

(** A second run, one sample long. *)
Definition runB : Run :=
  {| r_traj := mkArray [row 5%float] 6;
     r_torques := mkArray [row 0%float] 6;
     r_errors := mkArray [[0%float; 0%float]] 2;
     r_times := [0%float] |}.

(** A run of one sample whose torques have a single column. *)
Definition run_narrow : Run :=
  {| r_traj := mkArray [row 5%float] 6;
     r_torques := mkArray [[0%float]] 1;
     r_errors := mkArray [[0%float; 0%float]] 2;
     r_times := [0%float] |}.

(** A run of two samples a very long time apart. *)
Definition run_slow : Run :=
  {| r_traj := mkArray [row 0%float; row 1%float] 6;
     r_torques := mkArray [row 0%float; row 0%float] 6;
     r_errors := mkArray [[0%float; 0%float]; [0%float; 0%float]] 2;
     r_times := [0%float; 1e300%float] |}.

(** The slow run selected and playing from sample 0. *)
Definition viz_slow_playing : Viz :=
  state_of (toggle (state_of (add_run "S" run_slow init))).

(** A world that lets [save] do everything. *)
Definition willing : Outside := {| refuses := fun _ => None |}.

(** ** Vocabulary for the properties of the whole class *)

(** A computation that assigns no field, however it ends. *)
Definition keeps_fields {A : Type} (m : M A) : Prop :=
  forall s : Viz, state_of (m s) = s.

(** The poses sent to the robot, in order, among the collaborator calls. *)
Fixpoint poses (tr : list Event) : list Vec :=
  match tr with
  | [] => []
  | UpdateCfg cfg :: tr' => cfg :: poses tr'
  | _ :: tr' => poses tr'
  end.

(** The label [toggle] gives the button: ["Pause" if self.is_playing else
    "Play"]. *)
Definition label_of (playing : bool) : string :=
  if playing then "Pause" else "Play".

(** The fields [switch_run] assigns before it touches the robot. *)
Definition load (r : Run) (s : Viz) : Viz :=
  set_current_idx 0 (set_dt (interval_of (r_times r)) (set_active r s)).

(** No two stored runs share a name. *)
Definition keys_unique (s : Viz) : Prop := NoDup (Py.dict_keys (runs s)).

(** Once a run is stored, the dropdown offers the stored names, in the
    store's order. *)
Definition options_mirror_store (s : Viz) : Prop :=
  runs s = [] \/ dropdown_options s = Py.dict_keys (runs s).

(** The button reads "Pause" while playing and "Play" otherwise. *)
Definition label_agrees (s : Viz) : Prop :=
  play_btn_name s = label_of (is_playing s).

(** The four loaded arrays are there together or not at all, and [dt] is
    the interval of the loaded timestamps (the default with none loaded). *)
Definition loaded_coherent (s : Viz) : Prop :=
  match trajectory s, torques s, errors s, times s with
  | None, None, None, None => dt s = default_dt
  | Some _, Some _, Some _, Some ts => dt s = interval_of ts
  | _, _, _, _ => False
  end.

(** The plots on display are the first few of the three plots of one run,
    in order (all three unless [update_plots] raised on the way), and there
    is none while no trajectory is loaded. *)
Definition plots_of_one_run (s : Viz) : Prop :=
  (exists name n, plot_handles s = firstn n (plot_titles name))
  /\ (plot_handles s <> [] -> trajectory s <> None).

(** The field assignments the methods are made of.  Every method call and
    every pass of the loop changes the fields by a sequence of these. *)
Inductive Mutation : Viz -> Viz -> Prop :=
| mut_store (name : string) (r : Run) (s : Viz) :
    Mutation s
      (set_dropdown_options (Py.dict_keys (Py.dict_set name r (runs s)))
         (set_runs (Py.dict_set name r (runs s)) s))
| mut_pick (name : string) (s : Viz) :
    Mutation s (set_dropdown_value name s)
| mut_load (name : string) (r : Run) (s : Viz) :
    Py.dict_get name (runs s) = Some r ->
    Mutation s (load r s)
| mut_plots (name : string) (n : nat) (s : Viz) :
    (firstn n (plot_titles name) <> [] -> trajectory s <> None) ->
    Mutation s (set_plot_handles (firstn n (plot_titles name)) s)
| mut_cursor (i : Z) (s : Viz) :
    (cursor_in_range s ->
     0 <= i /\ forall traj, trajectory s = Some traj -> i <= Py.len traj) ->
    Mutation s (set_current_idx i s)
| mut_toggle (s : Viz) :
    Mutation s
      (set_play_btn_name (if negb (is_playing s) then "Pause" else "Play")
         (set_is_playing (negb (is_playing s)) s))
| mut_halt (s : Viz) :
    Mutation s (set_play_btn_name "Play" (set_is_playing false s)).

Inductive Mutations : Viz -> Viz -> Prop :=
| muts_done (s : Viz) : Mutations s s
| muts_step (s s1 s2 : Viz) :
    Mutation s s1 -> Mutations s1 s2 -> Mutations s s2.

(** The fields after a sequence of callbacks and loop passes.  A callback
    that raises ends alone; the fields it assigned stay, and the next one
    starts from them. *)
Definition run_actions (acts : list Action) (s : Viz) : Viz :=
  fold_left (fun s' a => state_of (perform a s')) acts s.

(** Playback over: run A loaded, idle, the cursor one past the last
    sample. *)
Definition vizA_finished : Viz := state_of (run_loop 4 vizA_playing).

(** Runs A and B stored, A loaded, the cursor on sample 2. *)
Definition vizAB : Viz := state_of (seek 2 (state_of (add_run "B" runB vizA))).

(** ** The scenario, evaluated *)

Example scenario_select :
  add_run "A" runA init =
  (state_of (add_run "A" runA init),
   [UpdateCfg (row 0%float); AddPlotly "A: Joint Angles";
    AddPlotly "A: Joint Torques"; AddPlotly "A: Tracking Errors"],
   Returned tt)
  /\ current_idx (state_of (add_run "A" runA init)) = 0
  /\ dt (state_of (add_run "A" runA init)) = NpFloat 0.1%float.
Proof. vm_compute. repeat split. Qed.

(** Played to the end: four passes of the loop from sample 0 send the
    three poses in order and stop with the cursor at 3. *)
Example scenario_play :
  run_loop 4 vizA_playing =
  (state_of (run_loop 4 vizA_playing),
   [Sleep 0.1%float; UpdateCfg (row 0%float); Sleep 0.1%float; Sleep 0.01%float;
    Sleep 0.1%float; UpdateCfg (row 1%float); Sleep 0.1%float; Sleep 0.01%float;
    Sleep 0.1%float; UpdateCfg (row 2%float); Sleep 0.1%float; Sleep 0.01%float;
    Sleep 0.01%float],
   Returned tt)
  /\ current_idx (state_of (run_loop 4 vizA_playing)) = 3
  /\ is_playing (state_of (run_loop 4 vizA_playing)) = false
  /\ play_btn_name (state_of (run_loop 4 vizA_playing)) = "Play".
Proof. vm_compute. repeat split. Qed.

(** ** Facts about sequences, dicts and the method monad *)

Lemma len_nonneg {A : Type} (l : list A) : 0 <= Py.len l.
Proof. unfold Py.len. lia. Qed.

Lemma index_in_range {A : Type} (l : list A) (i : Z) :
  0 <= i < Py.len l ->
  exists a, Py.index l i = Some a /\ nth_error l (Z.to_nat i) = Some a.
Proof.
  intros Hi. unfold Py.index.
  replace ((0 <=? i) && (i <? Py.len l))%bool with true
    by (symmetry; apply andb_true_iff; split;
        [apply Z.leb_le | apply Z.ltb_lt]; lia).
  destruct (nth_error l (Z.to_nat i)) as [a|] eqn:E.
  - exists a. split; reflexivity.
  - apply nth_error_None in E. unfold Py.len in Hi. lia.
Qed.

Lemma index_empty {A : Type} (i : Z) : Py.index (@nil A) i = None.
Proof.
  unfold Py.index, Py.len. cbn [List.length Z.of_nat].
  destruct ((0 <=? i) && (i <? 0))%bool eqn:E1.
  - apply andb_true_iff in E1. destruct E1 as [H1 H2].
    apply Z.leb_le in H1. apply Z.ltb_lt in H2. lia.
  - destruct ((- 0 <=? i) && (i <? 0))%bool eqn:E2; [|reflexivity].
    apply andb_true_iff in E2. destruct E2 as [H1 H2].
    apply Z.leb_le in H1. apply Z.ltb_lt in H2. lia.
Qed.

Lemma bind_returned {A B : Type} (m : M A) (k : A -> M B) s s1 tr1 a :
  m s = (s1, tr1, Returned a) ->
  bind m k s = (state_of (k a s1), tr1 ++ trace_of (k a s1), outcome_of (k a s1)).
Proof.
  intros E. unfold bind. rewrite E.
  destruct (k a s1) as [[s2 tr2] o]. reflexivity.
Qed.

Lemma bind_returned_or_raised {A B : Type} (m : M A) (k : A -> M B)
      s s1 tr1 (o : Outcome A) :
  m s = (s1, tr1, o) ->
  bind m k s =
  match o with
  | Returned a =>
      (state_of (k a s1), tr1 ++ trace_of (k a s1), outcome_of (k a s1))
  | Raised e => (s1, tr1, Raised e)
  end.
Proof.
  intros E. unfold bind. rewrite E. destruct o as [a|e]; [|reflexivity].
  destruct (k a s1) as [[s2 tr2] o2]. reflexivity.
Qed.

Lemma bind_raised {A B : Type} (m : M A) (k : A -> M B) s s1 tr1 e :
  m s = (s1, tr1, Raised e) ->
  bind m k s = (s1, tr1, Raised e).
Proof. intros E. unfold bind. rewrite E. reflexivity. Qed.

Lemma for_each_call {A : Type} (f : A -> Event) (xs : list A) (s : Viz) :
  for_each xs (fun x => call (f x)) s = (s, map f xs, Returned tt).
Proof.
  induction xs as [|x xs IH]; [reflexivity|].
  cbn [for_each map]. unfold bind at 1. cbn. rewrite IH. reflexivity.
Qed.

Lemma bind_get {B : Type} (k : Viz -> M B) (s : Viz) :
  bind get k s = k s s.
Proof. unfold bind, get. destruct (k s s) as [[s2 tr2] o]. reflexivity. Qed.

Lemma bind_assign {B : Type} (f : Viz -> Viz) (k : unit -> M B) (s : Viz) :
  bind (assign f) k s = k tt (f s).
Proof.
  unfold bind, assign. destruct (k tt (f s)) as [[s2 tr2] o]. reflexivity.
Qed.

Lemma bind_ret {A B : Type} (a : A) (k : A -> M B) (s : Viz) :
  bind (ret a) k s = k a s.
Proof. unfold bind, ret. destruct (k a s) as [[s2 tr2] o]. reflexivity. Qed.

Lemma bind_raise {A B : Type} (e : Exn) (k : A -> M B) (s : Viz) :
  bind (raise e) k s = (s, [], Raised e).
Proof. reflexivity. Qed.

Lemma bind_call {B : Type} (e : Event) (k : unit -> M B) (s : Viz) :
  bind (call e) k s =
  (state_of (k tt s), e :: trace_of (k tt s), outcome_of (k tt s)).
Proof. unfold bind, call. destruct (k tt s) as [[s2 tr2] o]. reflexivity. Qed.

(** The poll sleep at the end of a pass always happens. *)
Lemma time_sleep_poll : time_sleep poll_interval = call (Sleep poll_interval).
Proof. reflexivity. Qed.

(** A column of an array that has it. *)
Lemma column_in_range (a : Array) (i : Z) :
  0 <= i < Z.of_nat (ncols a) ->
  column a i = ret (map (fun r => nth (Z.to_nat i) r 0%float) (rows a)).
Proof.
  intros Hi. unfold column.
  replace ((0 <=? i) && (i <? Z.of_nat (ncols a)))%bool with true
    by (symmetry; apply andb_true_iff; split;
        [apply Z.leb_le | apply Z.ltb_lt]; lia).
  reflexivity.
Qed.

(** A column past the last one. *)
Lemma column_out_of_range (a : Array) (i : Z) :
  Z.of_nat (ncols a) <= i -> column a i = raise IndexError.
Proof.
  intros Hi. unfold column.
  replace ((0 <=? i) && (i <? Z.of_nat (ncols a)))%bool with false
    by (symmetry; apply andb_false_iff; right; apply Z.ltb_ge; lia).
  replace ((- Z.of_nat (ncols a) <=? i) && (i <? 0))%bool with false
    by (symmetry; apply andb_false_iff; right; apply Z.ltb_ge; lia).
  reflexivity.
Qed.

(** Taking one column of a loaded array, as a trace of a figure does. *)
Lemma take_column (get_array : M Array) (field : Viz -> option Array)
      (i : nat) (s : Viz) :
  (forall s', get_array s' =
              match field s' with
              | Some a => (s', [], Returned a)
              | None => (s', [], Raised TypeError)
              end) ->
  (a <- get_array ;; _ <- column a (Z.of_nat i) ;; ret tt) s =
  (s, [],
   match slice_error (S i) (field s) with
   | Some e => Raised e
   | None => Returned tt
   end).
Proof.
  intros Hget. unfold bind at 1. rewrite Hget. unfold slice_error.
  destruct (field s) as [a|]; [|reflexivity].
  destruct (Nat.leb_spec (S i) (ncols a)) as [Hle|Hgt].
  - rewrite column_in_range by lia. reflexivity.
  - rewrite column_out_of_range by lia. reflexivity.
Qed.

(** Taking the columns [m .. m+n-1] one after the other, as the loops over
    [range(6)] do: it changes nothing and calls nothing, and it raises at the
    first missing column. *)
Lemma take_columns (get_array : M Array) (field : Viz -> option Array)
      (s : Viz) :
  (forall s', get_array s' =
              match field s' with
              | Some a => (s', [], Returned a)
              | None => (s', [], Raised TypeError)
              end) ->
  forall n m : nat,
    for_each (map Z.of_nat (seq m (S n)))
      (fun i => a <- get_array ;; _ <- column a i ;; ret tt) s =
    (s, [],
     match slice_error (m + S n) (field s) with
     | Some e => Raised e
     | None => Returned tt
     end).
Proof.
  intros Hget. induction n as [|n IH]; intros m.
  - cbn [seq map for_each].
    rewrite (bind_returned_or_raised _ _ _ _ _ _ (take_column get_array field m s Hget)).
    replace (m + 1)%nat with (S m) by lia.
    destruct (slice_error (S m) (field s)); reflexivity.
  - change (seq m (S (S n))) with (m :: seq (S m) (S n)).
    cbn [map for_each].
    rewrite (bind_returned_or_raised _ _ _ _ _ _ (take_column get_array field m s Hget)).
    rewrite (IH (S m)).
    replace (S m + S n)%nat with (m + S (S n))%nat by lia.
    unfold slice_error. destruct (field s) as [a|]; [|reflexivity].
    destruct (Nat.leb_spec (S m) (ncols a)) as [H1|H1];
      destruct (Nat.leb_spec (m + S (S n)) (ncols a)) as [H2|H2];
      try reflexivity; lia.
Qed.
Lemma sample_interval_spec (ts : list float) (s : Viz) :
  sample_interval ts s = (s, [], Returned (interval_of ts)).
Proof.
  destruct ts as [|t0 [|t1 ts]]; try reflexivity.
  unfold sample_interval.
  replace (1 <? Py.len (t0 :: t1 :: ts)) with true
    by (symmetry; apply Z.ltb_lt; unfold Py.len; cbn [List.length]; lia).
  assert (H1 : Py.index (t0 :: t1 :: ts) 1 = Some t1).
  { unfold Py.index.
    replace ((0 <=? 1) && (1 <? Py.len (t0 :: t1 :: ts)))%bool with true
      by (symmetry; apply andb_true_iff; split;
          [reflexivity | apply Z.ltb_lt; unfold Py.len; cbn [List.length]; lia]).
    reflexivity. }
  assert (H0 : Py.index (t0 :: t1 :: ts) 0 = Some t0).
  { unfold Py.index.
    replace ((0 <=? 0) && (0 <? Py.len (t0 :: t1 :: ts)))%bool with true
      by (symmetry; apply andb_true_iff; split;
          [reflexivity | apply Z.ltb_lt; unfold Py.len; cbn [List.length]; lia]).
    reflexivity. }
  unfold subscript. rewrite H1, H0. reflexivity.
Qed.

Lemma interval_of_long (ts : list float) :
  2 <= Py.len ts ->
  interval_of ts = NpFloat (PrimFloat.sub (nth 1 ts 0%float) (nth 0 ts 0%float)).
Proof.
  destruct ts as [|t0 [|t1 ts]]; unfold Py.len; cbn [List.length]; try lia.
  reflexivity.
Qed.

Lemma interval_of_short (ts : list float) :
  Py.len ts < 2 -> interval_of ts = default_dt.
Proof.
  destruct ts as [|t0 [|t1 ts]]; unfold Py.len; cbn [List.length]; try lia;
    reflexivity.
Qed.

Lemma get_trajectory_spec (s : Viz) :
  the_trajectory s =
  match trajectory s with
  | Some a => (s, [], Returned a)
  | None => (s, [], Raised TypeError)
  end.
Proof. unfold the_trajectory. rewrite bind_get. destruct (trajectory s); reflexivity. Qed.

Lemma get_torques_spec (s : Viz) :
  the_torques s =
  match torques s with
  | Some a => (s, [], Returned a)
  | None => (s, [], Raised TypeError)
  end.
Proof. unfold the_torques. rewrite bind_get. destruct (torques s); reflexivity. Qed.

Lemma get_errors_spec (s : Viz) :
  the_errors s =
  match errors s with
  | Some a => (s, [], Returned a)
  | None => (s, [], Raised TypeError)
  end.
Proof. unfold the_errors. rewrite bind_get. destruct (errors s); reflexivity. Qed.

(** The two traces of the error figure. *)
Lemma take_error_columns {B : Type} (k : M B) (s : Viz) :
  (a <- the_errors ;; _ <- column a 0 ;; a <- the_errors ;; _ <- column a 1 ;; k) s =
  match slice_error 2 (errors s) with
  | Some e => (s, [], Raised e)
  | None => k s
  end.
Proof.
  unfold bind at 1. rewrite get_errors_spec. unfold slice_error.
  destruct (errors s) as [a|] eqn:He; [|reflexivity].
  destruct (Nat.leb_spec 2 (ncols a)) as [Hle|Hgt].
  - rewrite column_in_range by lia. rewrite bind_ret.
    unfold bind at 1. rewrite get_errors_spec, He.
    rewrite column_in_range by lia. rewrite bind_ret.
    destruct (k s) as [[s2 tr2] o]. reflexivity.
  - destruct (ncols a) as [|[|n]] eqn:Hn; [| |lia].
    + rewrite column_out_of_range by (rewrite Hn; lia). reflexivity.
    + rewrite column_in_range by (rewrite Hn; lia). rewrite bind_ret.
      unfold bind at 1. rewrite get_errors_spec, He.
      rewrite column_out_of_range by (rewrite Hn; lia). reflexivity.
Qed.

Lemma add_plot_spec (title : string) (s : Viz) :
  add_plot title s =
  (set_plot_handles (plot_handles s ++ [title]) s, [AddPlotly title], Returned tt).
Proof. reflexivity. Qed.

(** [update_plots] in closed form: the old plots are removed, the plots of
    [plots_drawn] are added and held, and the call ends as [plots_drawn]
    says.  It touches [plot_handles] only. *)
Lemma update_plots_spec (name : string) (s : Viz) :
  update_plots name s =
  (set_plot_handles (fst (plots_drawn name s)) s,
   map RemovePlot (plot_handles s) ++ map AddPlotly (fst (plots_drawn name s)),
   snd (plots_drawn name s)).
Proof.
  unfold update_plots.
  rewrite bind_get.
  rewrite (bind_returned_or_raised _ _ _ _ _ _
             (for_each_call RemovePlot (plot_handles s) s)).
  rewrite bind_assign, bind_get.
  unfold plots_drawn.
  cbn [trajectory torques errors set_plot_handles].
  destruct (trajectory s) as [traj|] eqn:Ht;
    [|unfold state_of, trace_of, outcome_of; cbn; rewrite app_nil_r; reflexivity].
  set (s0 := set_plot_handles [] s).
  assert (Ht0 : trajectory s0 = Some traj) by exact Ht.
  change range6 with (map Z.of_nat (seq 0 6)).
  rewrite (bind_returned_or_raised _ _ _ _ _ _
             (take_columns the_trajectory trajectory s0 get_trajectory_spec 5 0)).
  cbn [Nat.add]. rewrite Ht0.
  destruct (slice_error 6 (Some traj)) as [e|] eqn:E1;
    [unfold state_of, trace_of, outcome_of; cbn; rewrite app_nil_r; reflexivity|].
  rewrite (bind_returned_or_raised _ _ _ _ _ _
             (add_plot_spec (String.append name ": Joint Angles") s0)).
  set (s1 := set_plot_handles _ s0).
  rewrite (bind_returned_or_raised _ _ _ _ _ _
             (take_columns the_torques torques s1 get_torques_spec 5 0)).
  cbn [Nat.add]. change (torques s1) with (torques s).
  destruct (slice_error 6 (torques s)) as [e|] eqn:E2;
    [unfold state_of, trace_of, outcome_of; cbn; reflexivity|].
  rewrite (bind_returned_or_raised _ _ _ _ _ _
             (add_plot_spec (String.append name ": Joint Torques") s1)).
  set (s2 := set_plot_handles _ s1).
  rewrite take_error_columns. change (errors s2) with (errors s).
  destruct (slice_error 2 (errors s)) as [e|] eqn:E3;
    unfold state_of, trace_of, outcome_of; cbn; reflexivity.
Qed.

Lemma plots_drawn_prefix (name : string) (s : Viz) :
  exists n, fst (plots_drawn name s) = firstn n (plot_titles name).
Proof.
  unfold plots_drawn.
  destruct (trajectory s); [|exists 0%nat; reflexivity].
  destruct (slice_error 6 (Some a)); [exists 0%nat; reflexivity|].
  destruct (slice_error 6 (torques s)); [exists 1%nat; reflexivity|].
  destruct (slice_error 2 (errors s)); [exists 2%nat; reflexivity|].
  exists 3%nat. reflexivity.
Qed.

Lemma plots_drawn_loaded (name : string) (s : Viz) :
  fst (plots_drawn name s) <> [] -> trajectory s <> None.
Proof.
  unfold plots_drawn. destruct (trajectory s); [discriminate|].
  intros H. exfalso. apply H. reflexivity.
Qed.

(** [plots_drawn] looks at the loaded arrays only. *)
Lemma plots_drawn_same (name : string) (s s' : Viz) :
  trajectory s' = trajectory s -> torques s' = torques s ->
  errors s' = errors s ->
  plots_drawn name s' = plots_drawn name s.
Proof. unfold plots_drawn. intros -> -> ->. reflexivity. Qed.

(** [switch_run] on a stored run, step by step: fields first, then the pose
    of the first sample, which needs one, then the plots. *)
Lemma switch_run_stored (name : string) (r : Run) (s : Viz) :
  Py.dict_get name (runs s) = Some r ->
  switch_run name s =
  match rows (r_traj r) with
  | [] => (load r s, [], Raised IndexError)
  | cfg :: _ =>
      (set_plot_handles (fst (plots_drawn name (load r s))) (load r s),
       UpdateCfg cfg :: map RemovePlot (plot_handles s)
       ++ map AddPlotly (fst (plots_drawn name (load r s))),
       snd (plots_drawn name (load r s)))
  end.
Proof.
  intros Hget. unfold switch_run.
  rewrite bind_get, Hget, bind_assign.
  rewrite (bind_returned_or_raised _ _ _ _ _ _
             (sample_interval_spec (r_times r) (set_active r s))).
  rewrite bind_assign, bind_assign.
  change (set_current_idx 0 (set_dt (interval_of (r_times r)) (set_active r s)))
    with (load r s).
  unfold subscript.
  destruct (rows (r_traj r)) as [|cfg traj] eqn:Etraj.
  - rewrite index_empty. reflexivity.
  - assert (H0 : Py.index (cfg :: traj) 0 = Some cfg).
    { unfold Py.index.
      replace ((0 <=? 0) && (0 <? Py.len (cfg :: traj)))%bool with true
        by (symmetry; apply andb_true_iff; split;
            [reflexivity | apply Z.ltb_lt; unfold Py.len; cbn [List.length]; lia]).
      reflexivity. }
    rewrite H0, bind_ret, bind_call, update_plots_spec. reflexivity.
Qed.
(** ** One pass of the scheduling loop *)

Lemma sleep_step_spec (s : Viz) :
  sleep_step s =
  match step_wait s with
  | Returned w => (s, [Sleep w], Returned tt)
  | Raised e => (s, [], Raised e)
  end.
Proof.
  unfold sleep_step, step_wait. rewrite bind_get.
  destruct (step_duration (dt s) (speed s)) as [d|e]; [|reflexivity].
  unfold time_sleep. destruct (sleep_error d); reflexivity.
Qed.

(** The body of the loop under [if self.is_playing and self.trajectory is
    not None:], for a trajectory that is loaded. *)
Lemma run_iteration_playing (s : Viz) (traj : Array) :
  is_playing s = true ->
  trajectory s = Some traj ->
  run_iteration s =
  if current_idx s <? Py.len traj then
    match step_wait s with
    | Raised e => (s, [], Raised e)
    | Returned w =>
        match Py.index traj (current_idx s) with
        | None => (s, [Sleep w], Raised IndexError)
        | Some cfg =>
            (set_current_idx (current_idx s + 1) s,
             [Sleep w; UpdateCfg cfg; Sleep w; Sleep poll_interval],
             Returned tt)
        end
    end
  else
    (set_play_btn_name "Play" (set_is_playing false s),
     [Sleep poll_interval], Returned tt).
Proof.
  intros Hp Ht. unfold run_iteration. rewrite time_sleep_poll.
  rewrite bind_get, Hp, Ht. cbn [andb].
  unfold bind at 1. unfold bind at 1.
  rewrite get_trajectory_spec, Ht. rewrite bind_get.
  destruct (current_idx s <? Py.len traj).
  - unfold bind at 1. rewrite sleep_step_spec.
    destruct (step_wait s) as [w|e] eqn:Ew; [|reflexivity].
    unfold bind at 1. rewrite get_trajectory_spec, Ht. rewrite bind_get.
    unfold subscript.
    destruct (Py.index traj (current_idx s)) as [cfg|]; [|reflexivity].
    rewrite bind_ret, bind_call, bind_get, bind_assign.
    rewrite sleep_step_spec.
    change (step_wait (set_current_idx (current_idx s + 1) s)) with (step_wait s).
    rewrite Ew. reflexivity.
  - reflexivity.
Qed.

(** A step cycle: playing, a trajectory loaded, the cursor on a sample, and
    a step interval that [time.sleep] takes. *)
Lemma run_iteration_step (s : Viz) (traj : Array) (w : float) :
  is_playing s = true ->
  trajectory s = Some traj ->
  0 <= current_idx s < Py.len traj ->
  step_wait s = Returned w ->
  exists cfg,
    nth_error traj (Z.to_nat (current_idx s)) = Some cfg /\
    run_iteration s =
    (set_current_idx (current_idx s + 1) s,
     [Sleep w; UpdateCfg cfg; Sleep w; Sleep poll_interval],
     Returned tt).
Proof.
  intros Hp Ht Hi Hw.
  destruct (index_in_range traj (current_idx s) Hi) as [cfg [Hidx Hnth]].
  exists cfg. split; [exact Hnth|].
  rewrite (run_iteration_playing s traj Hp Ht), Hw, Hidx.
  replace (current_idx s <? Py.len traj) with true
    by (symmetry; apply Z.ltb_lt; lia).
  reflexivity.
Qed.

(** The halting pass: playing with the cursor past the last sample. *)
Lemma run_iteration_halt (s : Viz) (traj : Array) :
  is_playing s = true ->
  trajectory s = Some traj ->
  Py.len traj <= current_idx s ->
  run_iteration s =
  (set_play_btn_name "Play" (set_is_playing false s),
   [Sleep poll_interval], Returned tt).
Proof.
  intros Hp Ht Hi.
  rewrite (run_iteration_playing s traj Hp Ht).
  replace (current_idx s <? Py.len traj) with false
    by (symmetry; apply Z.ltb_ge; lia).
  reflexivity.
Qed.

(** The polling pass: not playing, or nothing loaded. *)
Lemma run_iteration_poll (s : Viz) :
  is_playing s = false \/ trajectory s = None ->
  run_iteration s = (s, [Sleep poll_interval], Returned tt).
Proof.
  intros H. unfold run_iteration. rewrite time_sleep_poll, bind_get.
  destruct H as [H|H]; rewrite H; [|rewrite andb_false_r]; reflexivity.
Qed.

Lemma run_loop_succ (n : nat) (s s1 : Viz) (tr : list Event) :
  run_iteration s = (s1, tr, Returned tt) ->
  run_loop (S n) s =
  (state_of (run_loop n s1), tr ++ trace_of (run_loop n s1),
   outcome_of (run_loop n s1)).
Proof.
  intros E. cbn [run_loop].
  exact (bind_returned run_iteration (fun _ => run_loop n) s s1 tr tt E).
Qed.

(** While idle, or with nothing loaded, the loop only polls. *)
Lemma run_loop_poll (n : nat) (s : Viz) :
  is_playing s = false \/ trajectory s = None ->
  run_loop n s = (s, repeat (Sleep poll_interval) n, Returned tt).
Proof.
  intros H. induction n as [|n IH]; [reflexivity|].
  rewrite (run_loop_succ n s s _ (run_iteration_poll s H)).
  rewrite IH. reflexivity.
Qed.

(** Playing from a cursor in [0, N] with a step interval that [time.sleep]
    takes: the cursor climbs by one per pass up to N, the pass after that
    clears [is_playing], and the loop then polls. *)
Lemma run_loop_playing (n : nat) :
  forall (s : Viz) (traj : Array) (w : float),
    is_playing s = true ->
    trajectory s = Some traj ->
    0 <= current_idx s <= Py.len traj ->
    step_wait s = Returned w ->
    let s' := state_of (run_loop n s) in
    current_idx s' = Z.min (Py.len traj) (current_idx s + Z.of_nat n)
    /\ is_playing s' = (Z.of_nat n <=? Py.len traj - current_idx s)
    /\ trajectory s' = Some traj
    /\ outcome_of (run_loop n s) = Returned tt.
Proof.
  induction n as [|n IH]; intros s traj w Hp Ht Hi Hw.
  - cbn [run_loop]. unfold ret, state_of, outcome_of. cbn [fst snd Z.of_nat].
    split; [lia|]. split; [|split; [assumption|reflexivity]].
    rewrite Hp. symmetry. apply Z.leb_le. lia.
  - destruct (Z_lt_le_dec (current_idx s) (Py.len traj)) as [Hlt|Hge].
    + destruct (run_iteration_step s traj w Hp Ht) as [cfg [_ E]];
        [lia | exact Hw |].
      rewrite (run_loop_succ n s _ _ E). cbn [state_of outcome_of fst snd].
      destruct (IH (set_current_idx (current_idx s + 1) s) traj w)
        as [H1 [H2 [H3 H4]]];
        [exact Hp | exact Ht | cbn [current_idx set_current_idx]; lia
        | exact Hw |].
      cbn [current_idx set_current_idx] in H1, H2.
      rewrite H1, H2, H3, H4. repeat split; try lia.
      destruct (Z.leb_spec (Z.of_nat n) (Py.len traj - (current_idx s + 1)));
        symmetry; [apply Z.leb_le | apply Z.leb_gt]; lia.
    + rewrite (run_loop_succ n s _ _ (run_iteration_halt s traj Hp Ht Hge)).
      rewrite run_loop_poll by (left; reflexivity).
      cbn. repeat split; try assumption; try lia.
      symmetry. apply Z.leb_gt. lia.
Qed.


(** [seek] with a trajectory loaded and playback stopped: the cursor is
    assigned the clamped index first, then the pose of that sample is sent,
    which needs the sample to exist. *)
Lemma seek_idle (idx : Z) (s : Viz) (traj : Array) :
  trajectory s = Some traj ->
  is_playing s = false ->
  seek idx s =
  match Py.index traj (clamp idx traj) with
  | Some cfg => (set_current_idx (clamp idx traj) s, [UpdateCfg cfg], Returned tt)
  | None => (set_current_idx (clamp idx traj) s, [], Raised IndexError)
  end.
Proof.
  intros Ht Hp.
  destruct s as [p tj tq er ti ci d sp rs ph dop dv pb].
  cbn in Ht, Hp. subst p tj.
  unfold seek, bind, get, the_trajectory, subscript, assign, call, ret.
  cbn. fold (clamp idx traj).
  destruct (Py.index traj (clamp idx traj)); reflexivity.
Qed.

Lemma clamp_bounds (idx : Z) (traj : list Vec) :
  0 <= clamp idx traj <= Py.len traj.
Proof. unfold clamp. pose proof (len_nonneg traj). lia. Qed.

Lemma clamp_on_sample (idx : Z) (traj : list Vec) :
  1 <= Py.len traj -> 0 <= clamp idx traj < Py.len traj.
Proof. unfold clamp. lia. Qed.

(** [switch_run] returns at once when the name is not a key. *)
Lemma switch_run_absent_key (name : string) (s : Viz) :
  Py.dict_get name (runs s) = None ->
  switch_run name s = (s, [], Returned tt).
Proof.
  intros Hget. unfold switch_run, bind, get. rewrite Hget. reflexivity.
Qed.

(** ** Run selection *)

(** C1 (amended): for every stored run, [switch_run] from any state leaves
    the cursor at 0 and [dt] at [times[1] - times[0]] when the run has two
    or more timestamps and at the default 0.01 otherwise; [is_playing] is not
    touched, so a visualizer that was playing is still playing. *)
Theorem switch_run_resets_cursor_and_interval
        (name : string) (r : Run) (s : Viz) :
  Py.dict_get name (runs s) = Some r ->
  let s' := state_of (switch_run name s) in
  current_idx s' = 0
  /\ is_playing s' = is_playing s
  /\ speed s' = speed s
  /\ trajectory s' = Some (r_traj r)
  /\ times s' = Some (r_times r)
  /\ (2 <= Py.len (r_times r) ->
      dt s' = NpFloat (PrimFloat.sub (nth 1 (r_times r) 0%float)
                                     (nth 0 (r_times r) 0%float)))
  /\ (Py.len (r_times r) < 2 -> dt s' = default_dt).
Proof.
  intros Hget. cbv zeta. rewrite (switch_run_stored name r s Hget).
  destruct (rows (r_traj r)) as [|cfg traj] eqn:Etraj;
    unfold state_of; cbn [fst snd];
    cbn [current_idx is_playing speed trajectory times dt load
         set_plot_handles set_current_idx set_dt set_active];
    repeat split; try reflexivity; intros H;
    try (apply interval_of_long; exact H);
    try (apply interval_of_short; exact H).
Qed.

Lemma switch_run_resets_cursor_and_interval_witness :
  Py.dict_get "A" (runs vizA_playing_at_1) = Some runA
  /\ current_idx vizA_playing_at_1 = 1
  /\ current_idx (state_of (switch_run "A" vizA_playing_at_1)) = 0
  /\ is_playing (state_of (switch_run "A" vizA_playing_at_1)) = true
  /\ dt (state_of (switch_run "A" vizA_playing_at_1)) = NpFloat 0.1%float.
Proof.
  pose proof (switch_run_resets_cursor_and_interval "A" runA vizA_playing_at_1
                eq_refl) as [H1 [H2 [_ [_ [_ [H3 _]]]]]].
  split; [reflexivity|]. split; [reflexivity|].
  split; [exact H1|]. split; [exact H2|].
  rewrite H3; [reflexivity | vm_compute; discriminate].
Defined.

(** C1 as stated fails: selecting a run while playing leaves [is_playing]
    true. *)
Lemma switch_run_while_playing_keeps_playing :
  Py.dict_get "A" (runs vizA_playing) = Some runA
  /\ is_playing vizA_playing = true
  /\ ~ (current_idx (state_of (switch_run "A" vizA_playing)) = 0
        /\ is_playing (state_of (switch_run "A" vizA_playing)) = false
        /\ dt (state_of (switch_run "A" vizA_playing))
           = NpFloat (PrimFloat.sub 0.1%float 0%float)).
Proof.
  split; [reflexivity|]. split; [reflexivity|].
  intros [_ [H _]]. vm_compute in H. discriminate H.
Qed.

(** C9: [switch_run] on a name that is not a key of [runs] returns at
    once: every field of the visualizer is as before, no collaborator is
    called and nothing is raised. *)
Theorem switch_run_unknown_name_noop (name : string) (s : Viz) :
  Py.dict_mem name (runs s) = false ->
  switch_run name s = (s, [], Returned tt).
Proof.
  unfold Py.dict_mem. intros Hmem.
  apply switch_run_absent_key.
  destruct (Py.dict_get name (runs s)) as [r|]; [discriminate Hmem | reflexivity].
Qed.

Lemma switch_run_unknown_name_noop_witness :
  Py.dict_mem "B" (runs vizA_playing_at_1) = false
  /\ switch_run "B" vizA_playing_at_1 = (vizA_playing_at_1, [], Returned tt).
Proof.
  split; [reflexivity|].
  apply (switch_run_unknown_name_noop "B" vizA_playing_at_1).
  reflexivity.
Defined.

(** ** Seeking *)

(** C7: [seek] while [is_playing] is true changes no field, calls no
    collaborator and raises nothing. *)
Theorem seek_while_playing_noop (k : Z) (s : Viz) :
  is_playing s = true ->
  seek k s = (s, [], Returned tt).
Proof.
  intros Hp. unfold seek, bind, get. rewrite Hp.
  destruct (trajectory s); reflexivity.
Qed.

Lemma seek_while_playing_noop_witness :
  is_playing vizA_playing_at_1 = true
  /\ seek 2 vizA_playing_at_1 = (vizA_playing_at_1, [], Returned tt).
Proof.
  split; [reflexivity|].
  apply (seek_while_playing_noop 2 vizA_playing_at_1). reflexivity.
Defined.

(** C8 (amended): with a trajectory of N >= 1 samples loaded and playback
    stopped, [seek(k)] sets the cursor to [max(0, min(k, N-1))] and sends the
    pose of the sample at that index; nothing else changes. *)
Theorem seek_idle_clamps (k : Z) (s : Viz) (traj : Array) :
  trajectory s = Some traj ->
  is_playing s = false ->
  1 <= Py.len traj ->
  exists cfg,
    nth_error traj (Z.to_nat (Z.max 0 (Z.min k (Py.len traj - 1)))) = Some cfg
    /\ seek k s =
       (set_current_idx (Z.max 0 (Z.min k (Py.len traj - 1))) s,
        [UpdateCfg cfg], Returned tt).
Proof.
  intros Ht Hp Hn.
  destruct (index_in_range traj (clamp k traj) (clamp_on_sample k traj Hn))
    as [cfg [Hidx Hnth]].
  exists cfg. split; [exact Hnth|].
  rewrite (seek_idle k s traj Ht Hp), Hidx. reflexivity.
Qed.

Lemma seek_idle_clamps_witness :
  trajectory vizA = Some (r_traj runA)
  /\ is_playing vizA = false
  /\ current_idx (state_of (seek 7 vizA)) = 2
  /\ trace_of (seek 7 vizA) = [UpdateCfg (row 2%float)]
  /\ current_idx (state_of (seek (-4) vizA)) = 0.
Proof.
  destruct (seek_idle_clamps 7 vizA (r_traj runA) eq_refl eq_refl)
    as [cfg [Hn E]]; [vm_compute; discriminate|].
  split; [reflexivity|]. split; [reflexivity|].
  rewrite E. split; [reflexivity|]. split; [|reflexivity].
  vm_compute in Hn. injection Hn as <-. reflexivity.
Defined.

(** C8 as stated fails on a loaded trajectory with no sample.  Run A is
    selected, an empty run B is added next to it, and B is picked in the
    dropdown: [switch_run] loads B's empty trajectory before it raises.
    [seek(5)] then sets the cursor to 0 and the subscript raises, so no pose
    is sent. *)
Lemma seek_on_empty_trajectory_raises :
  outcome_of (add_run "B" run_empty vizA) = Returned tt
  /\ trajectory vizA_empty_selected = Some no_rows
  /\ Py.len no_rows = 0
  /\ is_playing vizA_empty_selected = false
  /\ seek 5 vizA_empty_selected = (vizA_empty_selected, [], Raised IndexError)
  /\ ~ (exists cfg, trace_of (seek 5 vizA_empty_selected) = [UpdateCfg cfg]).
Proof.
  repeat (split; [reflexivity|]).
  intros [cfg H]. vm_compute in H. discriminate H.
Qed.

(** ** The scheduling loop *)




(** The passes of the loop compose. *)
Lemma run_loop_add (a b : nat) :
  forall s : Viz,
    outcome_of (run_loop a s) = Returned tt ->
    state_of (run_loop (a + b) s) = state_of (run_loop b (state_of (run_loop a s))).
Proof.
  induction a as [|a IH]; intros s Ho; [reflexivity|].
  cbn [Nat.add run_loop] in Ho |- *.
  destruct (run_iteration s) as [[s1 tr1] [[]|e]] eqn:E.
  - rewrite (bind_returned run_iteration (fun _ => run_loop (a + b)) s s1 tr1 tt E).
    rewrite (bind_returned run_iteration (fun _ => run_loop a) s s1 tr1 tt E) in Ho |- *.
    unfold state_of at 1 3. cbn [fst]. fold (state_of (run_loop (a + b) s1)).
    fold (state_of (run_loop a s1)).
    apply IH. exact Ho.
  - rewrite (bind_raised run_iteration (fun _ => run_loop a) s s1 tr1 e E) in Ho.
    discriminate Ho.
Qed.

(** C2 (amended): on a trajectory of N >= 2 samples, playing from cursor
    N-2, with [dt / speed] a duration that [time.sleep] takes, no pass of
    the loop raises, the cursor after n passes is [min(N, N-2+n)] and
    [is_playing] holds exactly while n <= 2: one pass leaves the cursor at
    N-1, two passes at N with [is_playing] still true, the third pass clears
    [is_playing] without moving the cursor, and every later pass leaves all
    fields as they are.  The cursor never goes back towards 0. *)
Theorem playback_from_last_but_one (s : Viz) (traj : Array) (w : float) :
  is_playing s = true ->
  trajectory s = Some traj ->
  2 <= Py.len traj ->
  current_idx s = Py.len traj - 2 ->
  step_wait s = Returned w ->
  (forall n : nat,
      current_idx (state_of (run_loop n s))
      = Z.min (Py.len traj) (Py.len traj - 2 + Z.of_nat n)
      /\ is_playing (state_of (run_loop n s)) = (Z.of_nat n <=? 2)
      /\ outcome_of (run_loop n s) = Returned tt)
  /\ current_idx (state_of (run_loop 1 s)) = Py.len traj - 1
  /\ is_playing (state_of (run_loop 1 s)) = true
  /\ current_idx (state_of (run_loop 2 s)) = Py.len traj
  /\ is_playing (state_of (run_loop 2 s)) = true
  /\ current_idx (state_of (run_loop 3 s)) = Py.len traj
  /\ is_playing (state_of (run_loop 3 s)) = false
  /\ (forall n : nat,
        state_of (run_loop (3 + n) s) = state_of (run_loop 3 s)).
Proof.
  intros Hp Ht Hn Hc Hw.
  assert (G : forall n : nat,
             current_idx (state_of (run_loop n s))
             = Z.min (Py.len traj) (Py.len traj - 2 + Z.of_nat n)
             /\ is_playing (state_of (run_loop n s)) = (Z.of_nat n <=? 2)
             /\ outcome_of (run_loop n s) = Returned tt).
  { intros n.
    destruct (run_loop_playing n s traj w Hp Ht) as [H1 [H2 [_ H4]]];
      [lia | exact Hw |].
    rewrite H1, H2, H4, Hc. repeat split.
    f_equal. lia. }
  split; [exact G|].
  destruct (G 1%nat) as [A1 [B1 _]]. destruct (G 2%nat) as [A2 [B2 _]].
  destruct (G 3%nat) as [A3 [B3 O3]].
  repeat split.
  - rewrite A1. lia.
  - rewrite B1. reflexivity.
  - rewrite A2. lia.
  - rewrite B2. reflexivity.
  - rewrite A3. lia.
  - rewrite B3. reflexivity.
  - intros n. rewrite (run_loop_add 3 n s O3).
    rewrite run_loop_poll; [reflexivity|].
    left. rewrite B3. reflexivity.
Qed.

Lemma playback_from_last_but_one_witness :
  is_playing vizA_playing_at_1 = true
  /\ trajectory vizA_playing_at_1 = Some (r_traj runA)
  /\ current_idx vizA_playing_at_1 = 1
  /\ step_wait vizA_playing_at_1 = Returned 0.1%float
  /\ current_idx (state_of (run_loop 1 vizA_playing_at_1)) = 2
  /\ current_idx (state_of (run_loop 2 vizA_playing_at_1)) = 3
  /\ is_playing (state_of (run_loop 3 vizA_playing_at_1)) = false.
Proof.
  destruct (playback_from_last_but_one vizA_playing_at_1 (r_traj runA)
              0.1%float eq_refl eq_refl)
    as [_ [H1 [_ [H2 [_ [_ [H3 _]]]]]]];
    [vm_compute; discriminate | reflexivity | reflexivity |].
  split; [reflexivity|].
  split; [reflexivity|]. split; [reflexivity|]. split; [reflexivity|].
  split; [exact H1|]. split; [exact H2|]. exact H3.
Defined.

(** C2 as stated fails: on run A (N = 3), playing from cursor 1, one pass
    of the loop leaves the cursor at 2, not 3, and [is_playing] true. *)
Lemma one_pass_from_last_but_one_keeps_playing :
  is_playing vizA_playing_at_1 = true
  /\ trajectory vizA_playing_at_1 = Some (r_traj runA)
  /\ current_idx vizA_playing_at_1 = Py.len (r_traj runA) - 2
  /\ current_idx (state_of (run_loop 1 vizA_playing_at_1)) = 2
  /\ is_playing (state_of (run_loop 1 vizA_playing_at_1)) = true
  /\ ~ (current_idx (state_of (run_loop 1 vizA_playing_at_1))
        = Py.len (r_traj runA)
        /\ is_playing (state_of (run_loop 1 vizA_playing_at_1)) = false).
Proof.
  repeat (split; [reflexivity|]).
  intros [H _]. vm_compute in H. discriminate H.
Qed.

(** C10: [toggle] needs no run: with no trajectory loaded it still negates
    [is_playing] (so the freshly built visualizer ends up playing with
    nothing to play) and relabels the button, calls no collaborator and
    raises nothing; after it, every pass of the loop only polls: no pose is
    sent and no field changes, because the loop's body also asks for a
    trajectory. *)
Theorem toggle_without_run (s : Viz) :
  trajectory s = None ->
  toggle s =
  (set_play_btn_name (if negb (is_playing s) then "Pause" else "Play")
     (set_is_playing (negb (is_playing s)) s),
   [], Returned tt)
  /\ trajectory (state_of (toggle s)) = None
  /\ is_playing (state_of (toggle s)) = negb (is_playing s)
  /\ is_playing (state_of (toggle init)) = true
  /\ forall n : nat,
       run_loop n (state_of (toggle s)) =
       (state_of (toggle s), repeat (Sleep poll_interval) n, Returned tt).
Proof.
  intros Ht.
  assert (E : toggle s =
              (set_play_btn_name (if negb (is_playing s) then "Pause" else "Play")
                 (set_is_playing (negb (is_playing s)) s),
               [], Returned tt)) by reflexivity.
  split; [exact E|]. rewrite E. unfold state_of. cbn [fst].
  split; [exact Ht|]. split; [reflexivity|]. split; [reflexivity|].
  intros n. apply run_loop_poll. right. exact Ht.
Qed.

Lemma toggle_without_run_witness :
  trajectory init = None
  /\ is_playing (state_of (toggle init)) = true
  /\ run_loop 4 (state_of (toggle init)) =
     (state_of (toggle init),
      [Sleep 0.01%float; Sleep 0.01%float; Sleep 0.01%float; Sleep 0.01%float],
      Returned tt).
Proof.
  destruct (toggle_without_run init eq_refl) as [_ [_ [_ [Hp Hl]]]].
  split; [reflexivity|]. split; [exact Hp|]. exact (Hl 4%nat).
Defined.

(** ** The cursor stays in range *)

Lemma cursor_in_range_same (s s' : Viz) :
  trajectory s' = trajectory s ->
  current_idx s' = current_idx s ->
  cursor_in_range s -> cursor_in_range s'.
Proof.
  unfold cursor_in_range. intros Ht Hc [H0 H1]. rewrite Ht, Hc.
  split; assumption.
Qed.

Lemma cursor_in_range_at (s : Viz) (i : Z) :
  0 <= i ->
  (forall traj, trajectory s = Some traj -> i <= Py.len traj) ->
  cursor_in_range (set_current_idx i s).
Proof. intros H0 H1. split; [exact H0 | exact H1]. Qed.

Lemma switch_run_cursor_in_range (name : string) (s : Viz) :
  cursor_in_range s -> cursor_in_range (state_of (switch_run name s)).
Proof.
  intros Hinv.
  destruct (Py.dict_get name (runs s)) as [r|] eqn:Hget.
  - rewrite (switch_run_stored name r s Hget).
    destruct (rows (r_traj r)) as [|cfg traj] eqn:Etraj; unfold state_of;
      cbn [fst];
      (split; [cbn; lia|]); cbn; intros traj' [= <-]; apply len_nonneg.
  - rewrite switch_run_absent_key; [exact Hinv | exact Hget].
Qed.

(** [add_run], with the store update done: the new run is selected exactly
    when the store now holds one run. *)
Lemma add_run_unfold (name : string) (r : Run) (s : Viz) :
  add_run name r s =
  let d := Py.dict_set name r (runs s) in
  let s1 := set_dropdown_options (Py.dict_keys d) (set_runs d s) in
  if Py.len d =? 1 then switch_run name (set_dropdown_value name s1)
  else (s1, [], Returned tt).
Proof.
  unfold add_run.
  rewrite bind_get, bind_assign, bind_get, bind_assign, bind_get.
  cbn [runs set_runs set_dropdown_options].
  destruct (Py.len (Py.dict_set name r (runs s)) =? 1).
  - rewrite bind_assign. reflexivity.
  - reflexivity.
Qed.

Lemma seek_skips (idx : Z) (s : Viz) :
  trajectory s = None \/ is_playing s = true ->
  seek idx s = (s, [], Returned tt).
Proof.
  intros H. unfold seek. rewrite bind_get.
  destruct (trajectory s) as [traj|]; [|reflexivity].
  destruct H as [H|H]; [discriminate H|]. rewrite H. reflexivity.
Qed.

Lemma restart_state (s : Viz) :
  state_of (restart s) = set_current_idx 0 s.
Proof.
  unfold restart. rewrite bind_assign, bind_get.
  cbn [trajectory set_current_idx].
  destruct (trajectory s) as [traj|]; [|reflexivity].
  unfold bind, subscript.
  destruct (Py.index traj 0); reflexivity.
Qed.

Lemma keeps_fields_bind {A B : Type} (m : M A) (k : A -> M B) :
  keeps_fields m -> (forall a, keeps_fields (k a)) -> keeps_fields (bind m k).
Proof.
  intros Hm Hk s. unfold bind. specialize (Hm s).
  destruct (m s) as [[s1 tr1] [a|e]]; unfold state_of in Hm; cbn [fst] in Hm;
    subst s1; [|reflexivity].
  specialize (Hk a s). destruct (k a s) as [[s2 tr2] o]. exact Hk.
Qed.

Lemma keeps_fields_for_each {A : Type} (xs : list A) (body : A -> M unit) :
  (forall x, keeps_fields (body x)) -> keeps_fields (for_each xs body).
Proof.
  intros Hb. induction xs as [|x xs IH]; [intros s; reflexivity|].
  cbn [for_each]. apply keeps_fields_bind; [apply Hb | intros _; exact IH].
Qed.

Lemma keeps_fields_column (a : Array) (i : Z) : keeps_fields (column a i).
Proof.
  intros s. unfold column.
  destruct ((0 <=? i) && (i <? Z.of_nat (ncols a)))%bool; [reflexivity|].
  destruct ((- Z.of_nat (ncols a) <=? i) && (i <? 0))%bool; reflexivity.
Qed.

Lemma keeps_fields_attempt (out : Outside) (e : Event) :
  keeps_fields (attempt out e).
Proof. intros s. unfold attempt. destruct (refuses out e); reflexivity. Qed.

Lemma keeps_fields_plot_column (out : Outside) (a : Array) (i : Z) :
  keeps_fields (plot_column out a i).
Proof.
  unfold plot_column. apply keeps_fields_bind; [intros s; reflexivity|].
  intros s0. apply keeps_fields_bind; [apply keeps_fields_column|].
  intros col. apply keeps_fields_attempt.
Qed.

Lemma keeps_fields_the_trajectory : keeps_fields the_trajectory.
Proof. intros s. rewrite get_trajectory_spec. destruct (trajectory s); reflexivity. Qed.

Lemma keeps_fields_the_torques : keeps_fields the_torques.
Proof. intros s. rewrite get_torques_spec. destruct (torques s); reflexivity. Qed.

Lemma keeps_fields_the_errors : keeps_fields the_errors.
Proof. intros s. rewrite get_errors_spec. destruct (errors s); reflexivity. Qed.

(** [save] assigns no field, however it ends. *)
Lemma save_state (out : Outside) (s : Viz) : state_of (save out s) = s.
Proof.
  revert s. change (keeps_fields (save out)). unfold save.
  apply keeps_fields_bind; [intros s; reflexivity|]. intros s0.
  destruct (trajectory s0); [|intros s; reflexivity].
  repeat first
    [ apply keeps_fields_attempt
    | apply keeps_fields_the_trajectory
    | apply keeps_fields_the_torques
    | apply keeps_fields_the_errors
    | apply keeps_fields_plot_column
    | apply keeps_fields_for_each; intros ?
    | apply keeps_fields_bind; [|intros ?] ].
Qed.

(** C3 (amended): the cursor stays in [0, N], N being the length of the
    loaded trajectory, across every method call and every pass of the loop
    (and stays non-negative while nothing is loaded).  The upper end N is
    reached by the loop after the last sample. *)
Theorem cursor_in_range_preserved (a : Action) (s : Viz) :
  cursor_in_range s -> cursor_in_range (state_of (perform a s)).
Proof.
  intros Hinv. destruct a as [name r|name|idx| | |name|out|]; cbn [perform].
  - (* add_run *)
    rewrite add_run_unfold. cbv zeta.
    destruct (Py.len (Py.dict_set name r (runs s)) =? 1).
    + apply switch_run_cursor_in_range.
      apply (cursor_in_range_same s); [reflexivity | reflexivity | exact Hinv].
    + apply (cursor_in_range_same s); [reflexivity | reflexivity | exact Hinv].
  - (* switch_run *)
    apply switch_run_cursor_in_range. exact Hinv.
  - (* seek *)
    destruct (trajectory s) as [traj|] eqn:Ht.
    + destruct (is_playing s) eqn:Hp.
      * rewrite seek_skips by (right; exact Hp). exact Hinv.
      * rewrite (seek_idle idx s traj Ht Hp).
        assert (G : cursor_in_range (set_current_idx (clamp idx traj) s)).
        { apply cursor_in_range_at; [apply clamp_bounds|].
          cbn [trajectory set_current_idx]. rewrite Ht. intros traj' [= <-].
          apply clamp_bounds. }
        destruct (Py.index traj (clamp idx traj)); exact G.
    + rewrite seek_skips by (left; exact Ht). exact Hinv.
  - (* toggle *)
    apply (cursor_in_range_same s); [reflexivity | reflexivity | exact Hinv].
  - (* restart *)
    rewrite restart_state. apply cursor_in_range_at; [lia|].
    intros traj _. apply len_nonneg.
  - (* update_plots *)
    rewrite update_plots_spec.
    apply (cursor_in_range_same s); [reflexivity | reflexivity | exact Hinv].
  - (* save *)
    rewrite save_state. exact Hinv.
  - (* one pass of the loop *)
    destruct (is_playing s) eqn:Hp.
    + destruct (trajectory s) as [traj|] eqn:Ht.
      * destruct Hinv as [H0 H1]. specialize (H1 traj Ht).
        destruct (Z_lt_le_dec (current_idx s) (Py.len traj)) as [Hlt|Hge].
        -- assert (Hs : cursor_in_range s).
           { split; [exact H0|]. intros traj'. rewrite Ht. intros [= <-].
             exact H1. }
           rewrite (run_iteration_playing s traj Hp Ht).
           replace (current_idx s <? Py.len traj) with true
             by (symmetry; apply Z.ltb_lt; lia).
           destruct (step_wait s) as [w|e]; [|exact Hs].
           destruct (Py.index traj (current_idx s)) as [cfg|]; [|exact Hs].
           apply cursor_in_range_at; [lia|].
           cbn [trajectory]. rewrite Ht. intros traj' [= <-]. lia.
        -- rewrite (run_iteration_halt s traj Hp Ht Hge).
           apply (cursor_in_range_same s); [reflexivity | reflexivity |].
           split; [exact H0|]. intros traj'. rewrite Ht. intros [= <-]. exact H1.
      * rewrite run_iteration_poll by (right; exact Ht). exact Hinv.
    + rewrite run_iteration_poll by (left; exact Hp). exact Hinv.
Qed.

Lemma cursor_in_range_preserved_witness :
  cursor_in_range init
  /\ cursor_in_range (state_of (perform (AddRun "A" runA) init))
  /\ cursor_in_range (state_of (perform Tick vizA_playing_at_1)).
Proof.
  assert (H0 : cursor_in_range init).
  { split; [cbn; lia | intros traj H; discriminate H]. }
  assert (H1 : cursor_in_range vizA_playing_at_1).
  { split; [vm_compute; discriminate|].
    intros traj [= <-]. vm_compute. discriminate. }
  split; [exact H0|]. split.
  - apply (cursor_in_range_preserved (AddRun "A" runA) init). exact H0.
  - apply (cursor_in_range_preserved Tick vizA_playing_at_1). exact H1.
Defined.

(** C3 as stated fails: on run A (N = 3), playing from cursor 2, a pass of
    the loop leaves the cursor at 3, outside [0, N-1]. *)
Lemma loop_moves_cursor_past_last_sample :
  cursor_on_sample (state_of (toggle (state_of (seek 2 vizA))))
  /\ current_idx (state_of (perform Tick (state_of (toggle (state_of (seek 2 vizA))))))
     = 3
  /\ ~ cursor_on_sample
       (state_of (perform Tick (state_of (toggle (state_of (seek 2 vizA)))))).
Proof.
  split.
  - intros traj [= <-]. vm_compute. split; discriminate.
  - split; [reflexivity|].
    intros H. specialize (H (r_traj runA) eq_refl).
    vm_compute in H. destruct H as [_ H]. apply H. reflexivity.
Qed.

(** ** Adding runs *)

Lemma dict_set_length {V : Type} (k : string) (v : V) (d : list (string * V)) :
  (List.length d <= List.length (Py.dict_set k v d))%nat.
Proof.
  induction d as [|[k' v'] d IH]; cbn [Py.dict_set List.length]; [lia|].
  destruct (String.eqb k' k); cbn [List.length]; lia.
Qed.

Lemma dict_set_sole_or_empty (name : string) (r : Run) (d : list (string * Run)) :
  sole_or_empty name d = true -> Py.dict_set name r d = [(name, r)].
Proof.
  destruct d as [|[k v] [|p d]]; cbn [sole_or_empty Py.dict_set];
    [reflexivity | | discriminate].
  intros Hk. rewrite Hk. apply String.eqb_eq in Hk. subst k. reflexivity.
Qed.

Lemma dict_set_several (name : string) (r : Run) (d : list (string * Run)) :
  sole_or_empty name d = false -> (Py.len (Py.dict_set name r d) =? 1) = false.
Proof.
  intros H. apply Z.eqb_neq. unfold Py.len.
  destruct d as [|[k v] [|p d]]; cbn [sole_or_empty] in H.
  - discriminate H.
  - cbn [Py.dict_set]. rewrite H. cbn [List.length]. lia.
  - pose proof (dict_set_length name r ((k, v) :: p :: d)) as L.
    cbn [List.length] in L. lia.
Qed.

(** C6 (amended): [add_run] selects the run it adds exactly when the store
    holds one run after the insertion, that is when the store was empty or
    held only a run of the same name, which is then replaced: the dropdown
    shows the name, the run's arrays are loaded, the cursor is 0 and [dt] is
    recomputed.  A call that leaves two or more runs in the store updates the
    store and the dropdown's options and nothing else. *)
Theorem add_run_selects_iff_single (name : string) (r : Run) (s : Viz) :
  (sole_or_empty name (runs s) = true ->
   let s' := state_of (add_run name r s) in
   runs s' = [(name, r)]
   /\ dropdown_value s' = name
   /\ trajectory s' = Some (r_traj r)
   /\ times s' = Some (r_times r)
   /\ current_idx s' = 0
   /\ dt s' = interval_of (r_times r))
  /\ (sole_or_empty name (runs s) = false ->
      add_run name r s =
      (set_dropdown_options (Py.dict_keys (Py.dict_set name r (runs s)))
         (set_runs (Py.dict_set name r (runs s)) s),
       [], Returned tt)).
Proof.
  split; intros H; rewrite add_run_unfold; cbv zeta.
  - rewrite (dict_set_sole_or_empty name r (runs s) H).
    change (Py.len [(name, r)] =? 1) with true. cbv iota.
    rewrite (switch_run_stored name r).
    + destruct (rows (r_traj r)) as [|cfg traj] eqn:Etraj; unfold state_of; cbn;
        rewrite ?Etraj; repeat split.
    + cbn. rewrite String.eqb_refl. reflexivity.
  - rewrite (dict_set_several name r (runs s) H). reflexivity.
Qed.

Lemma add_run_selects_iff_single_witness :
  sole_or_empty "A" (runs init) = true
  /\ trajectory (state_of (add_run "A" runA init)) = Some (r_traj runA)
  /\ sole_or_empty "B" (runs vizA) = false
  /\ trajectory (state_of (add_run "B" runB vizA)) = Some (r_traj runA)
  /\ trace_of (add_run "B" runB vizA) = [].
Proof.
  destruct (add_run_selects_iff_single "A" runA init) as [H1 _].
  destruct (add_run_selects_iff_single "B" runB vizA) as [_ H2].
  specialize (H1 eq_refl). specialize (H2 eq_refl).
  destruct H1 as [_ [_ [H1 _]]].
  split; [reflexivity|]. split; [exact H1|]. split; [reflexivity|].
  rewrite H2. split; reflexivity.
Defined.

(** C6 as stated fails: with run A the only stored run and the cursor moved
    to sample 2, adding a run under the name A again selects it: the new
    arrays are loaded and the cursor is back at 0. *)
Lemma add_run_same_name_selects_again :
  runs (state_of (seek 2 vizA)) = [("A", runA)]
  /\ current_idx (state_of (seek 2 vizA)) = 2
  /\ trajectory (state_of (add_run "A" runB (state_of (seek 2 vizA))))
     = Some (r_traj runB)
  /\ current_idx (state_of (add_run "A" runB (state_of (seek 2 vizA)))) = 0
  /\ ~ (trajectory (state_of (add_run "A" runB (state_of (seek 2 vizA))))
        = trajectory (state_of (seek 2 vizA))
        /\ current_idx (state_of (add_run "A" runB (state_of (seek 2 vizA))))
           = current_idx (state_of (seek 2 vizA))).
Proof.
  repeat (split; [reflexivity|]).
  intros [_ H]. vm_compute in H. discriminate H.
Qed.

(** ** Short runs and missing runs *)

(** [switch_run] on a stored run with no sample raises once the fields are
    assigned. *)
Lemma switch_run_no_sample_raises (name : string) (r : Run) (s : Viz) :
  Py.dict_get name (runs s) = Some r ->
  rows (r_traj r) = [] ->
  switch_run name s =
  (set_current_idx 0 (set_dt (interval_of (r_times r)) (set_active r s)),
   [], Raised IndexError).
Proof.
  intros Hget Hnil. rewrite (switch_run_stored name r s Hget), Hnil.
  reflexivity.
Qed.

(** A first run with a single sample, whose arrays have the columns the
    plots take, is selected with the default interval. *)
Lemma add_first_run_single_sample (name : string) (r : Run) (s : Viz)
      (cfg : Vec) (t : float) :
  runs s = [] ->
  rows (r_traj r) = [cfg] ->
  r_times r = [t] ->
  (6 <= ncols (r_traj r))%nat ->
  (6 <= ncols (r_torques r))%nat ->
  (2 <= ncols (r_errors r))%nat ->
  outcome_of (add_run name r s) = Returned tt
  /\ dt (state_of (add_run name r s)) = default_dt
  /\ current_idx (state_of (add_run name r s)) = 0.
Proof.
  intros Hruns Htraj Htimes H1 H2 H3. rewrite add_run_unfold. cbv zeta.
  rewrite Hruns. cbn [Py.dict_set].
  change (Py.len [(name, r)] =? 1) with true. cbv iota.
  rewrite (switch_run_stored name r).
  - rewrite Htraj. unfold outcome_of, state_of. cbn [fst snd].
    split; [|cbn; rewrite Htimes; split; reflexivity].
    unfold plots_drawn, slice_error.
    cbn [trajectory torques errors load set_current_idx set_dt set_active].
    apply Nat.leb_le in H1, H2, H3. rewrite H1, H2, H3. reflexivity.
  - cbn. rewrite String.eqb_refl. reflexivity.
Qed.

(** [save] with nothing loaded writes nothing and returns, whatever the
    world outside would answer. *)
Lemma save_without_run (out : Outside) (s : Viz) :
  trajectory s = None -> save out s = (s, [], Returned tt).
Proof. intros Ht. unfold save. rewrite bind_get, Ht. reflexivity. Qed.

(** C4 (the code departs from it): adding a first run with no sample
    raises.  [add_run] stores the run and selects it; [switch_run] assigns
    the arrays, the default interval and cursor 0, and then subscripts the
    empty trajectory at 0: the [IndexError] leaves [add_run], nothing was
    sent to the robot or the plots, and an empty trajectory stays loaded. *)
Theorem add_empty_first_run_raises :
  add_run "A" run_empty init =
  (state_of (add_run "A" run_empty init), [], Raised IndexError)
  /\ trajectory (state_of (add_run "A" run_empty init)) = Some no_rows
  /\ rows no_rows = []
  /\ dt (state_of (add_run "A" run_empty init)) = default_dt
  /\ current_idx (state_of (add_run "A" run_empty init)) = 0
  /\ plot_handles (state_of (add_run "A" run_empty init)) = [].
Proof. repeat split. Qed.

(** ** Stored runs *)

Lemma dict_get_set_same {V : Type} (k : string) (v : V) (d : list (string * V)) :
  Py.dict_get k (Py.dict_set k v d) = Some v.
Proof.
  induction d as [|[k' v'] d IH]; cbn [Py.dict_set Py.dict_get].
  - rewrite String.eqb_refl. reflexivity.
  - destruct (String.eqb k' k) eqn:E; cbn [Py.dict_get]; rewrite E;
      [reflexivity | exact IH].
Qed.

Lemma dict_get_set_other {V : Type} (k k2 : string) (v : V)
      (d : list (string * V)) :
  k <> k2 ->
  Py.dict_get k2 (Py.dict_set k v d) = Py.dict_get k2 d.
Proof.
  intros Hne. induction d as [|[k' v'] d IH]; cbn [Py.dict_set Py.dict_get].
  - destruct (String.eqb k k2) eqn:E; [|reflexivity].
    apply String.eqb_eq in E. contradiction.
  - destruct (String.eqb k' k) eqn:E; cbn [Py.dict_get].
    + apply String.eqb_eq in E. subst k'.
      destruct (String.eqb k k2) eqn:E2; [|reflexivity].
      apply String.eqb_eq in E2. contradiction.
    + destruct (String.eqb k' k2); [reflexivity | exact IH].
Qed.

Lemma dict_keys_set {V : Type} (k : string) (v : V) (d : list (string * V)) :
  Py.dict_keys (Py.dict_set k v d) =
  if Py.dict_mem k d then Py.dict_keys d else Py.dict_keys d ++ [k].
Proof.
  unfold Py.dict_mem, Py.dict_keys.
  induction d as [|[k' v'] d IH]; cbn [Py.dict_set Py.dict_get map fst app];
    [reflexivity|].
  destruct (String.eqb k' k) eqn:E; cbn [map fst]; [reflexivity|].
  rewrite IH. destruct (Py.dict_get k d); reflexivity.
Qed.

Lemma dict_mem_false_not_in {V : Type} (k : string) (d : list (string * V)) :
  Py.dict_mem k d = false -> ~ In k (Py.dict_keys d).
Proof.
  unfold Py.dict_mem, Py.dict_keys.
  induction d as [|[k' v'] d IH]; cbn [Py.dict_get map fst In]; [tauto|].
  destruct (String.eqb k' k) eqn:E; [discriminate|].
  intros H [Hk|Hin].
  - subst k'. rewrite String.eqb_refl in E. discriminate E.
  - exact (IH H Hin).
Qed.

Lemma dict_keys_set_nodup {V : Type} (k : string) (v : V)
      (d : list (string * V)) :
  NoDup (Py.dict_keys d) -> NoDup (Py.dict_keys (Py.dict_set k v d)).
Proof.
  intros Hd. rewrite dict_keys_set.
  destruct (Py.dict_mem k d) eqn:E; [exact Hd|].
  apply NoDup_app; [exact Hd | repeat constructor; intros [] |].
  intros x Hx [<-|[]]. exact (dict_mem_false_not_in k d E Hx).
Qed.

(** The fields [switch_run] leaves, for every store and name. *)
Lemma switch_run_state (name : string) (s : Viz) :
  state_of (switch_run name s) =
  match Py.dict_get name (runs s) with
  | None => s
  | Some r =>
      match rows (r_traj r) with
      | [] => load r s
      | _ :: _ =>
          set_plot_handles (fst (plots_drawn name (load r s))) (load r s)
      end
  end.
Proof.
  destruct (Py.dict_get name (runs s)) as [r|] eqn:Hget.
  - rewrite (switch_run_stored name r s Hget).
    destruct (rows (r_traj r)); reflexivity.
  - rewrite (switch_run_absent_key name s Hget). reflexivity.
Qed.

Lemma switch_run_runs (name : string) (s : Viz) :
  runs (state_of (switch_run name s)) = runs s.
Proof.
  rewrite switch_run_state.
  destruct (Py.dict_get name (runs s)) as [r|]; [|reflexivity].
  destruct (rows (r_traj r)); reflexivity.
Qed.

Lemma add_run_runs (name : string) (r : Run) (s : Viz) :
  runs (state_of (add_run name r s)) = Py.dict_set name r (runs s).
Proof.
  rewrite add_run_unfold. cbv zeta.
  destruct (Py.len (Py.dict_set name r (runs s)) =? 1).
  - rewrite switch_run_runs. reflexivity.
  - reflexivity.
Qed.

Lemma add_run_options (name : string) (r : Run) (s : Viz) :
  dropdown_options (state_of (add_run name r s))
  = Py.dict_keys (Py.dict_set name r (runs s)).
Proof.
  rewrite add_run_unfold. cbv zeta.
  destruct (Py.len (Py.dict_set name r (runs s)) =? 1).
  - rewrite switch_run_state. cbn [runs set_dropdown_value set_dropdown_options set_runs].
    destruct (Py.dict_get name (Py.dict_set name r (runs s))) as [r'|];
      [|reflexivity].
    destruct (rows (r_traj r')); reflexivity.
  - reflexivity.
Qed.

(** ** What a call can do to the fields *)

(** A pass of the loop, for every state: it polls, or is refused its
    first sleep, or makes a step, or finds no sample under the cursor, or
    halts playback. *)
Lemma run_iteration_cases (s : Viz) :
  ((is_playing s = false \/ trajectory s = None)
   /\ run_iteration s = (s, [Sleep poll_interval], Returned tt))
  \/ (exists traj e,
         is_playing s = true /\ trajectory s = Some traj
         /\ current_idx s < Py.len traj
         /\ step_wait s = Raised e
         /\ run_iteration s = (s, [], Raised e))
  \/ (exists traj w cfg,
         is_playing s = true /\ trajectory s = Some traj
         /\ current_idx s < Py.len traj
         /\ step_wait s = Returned w
         /\ Py.index traj (current_idx s) = Some cfg
         /\ run_iteration s =
            (set_current_idx (current_idx s + 1) s,
             [Sleep w; UpdateCfg cfg; Sleep w; Sleep poll_interval],
             Returned tt))
  \/ (exists traj w,
         is_playing s = true /\ trajectory s = Some traj
         /\ current_idx s < Py.len traj
         /\ step_wait s = Returned w
         /\ Py.index traj (current_idx s) = None
         /\ run_iteration s = (s, [Sleep w], Raised IndexError))
  \/ (exists traj,
         is_playing s = true /\ trajectory s = Some traj
         /\ Py.len traj <= current_idx s
         /\ run_iteration s =
            (set_play_btn_name "Play" (set_is_playing false s),
             [Sleep poll_interval], Returned tt)).
Proof.
  destruct (is_playing s) eqn:Hp;
    [|left; split; [left; reflexivity | apply run_iteration_poll; left; exact Hp]].
  destruct (trajectory s) as [traj|] eqn:Ht;
    [|left; split; [right; reflexivity | apply run_iteration_poll; right; exact Ht]].
  right. rewrite (run_iteration_playing s traj Hp Ht).
  destruct (Z.ltb_spec (current_idx s) (Py.len traj)) as [Hlt|Hge].
  - destruct (step_wait s) as [w|e] eqn:Hw.
    + right. destruct (Py.index traj (current_idx s)) as [cfg|] eqn:Hidx.
      * left. exists traj, w, cfg. repeat split; assumption || reflexivity.
      * right. left. exists traj, w. repeat split; assumption || reflexivity.
    + left. exists traj, e. repeat split; assumption || reflexivity.
  - right. right. right. exists traj. repeat split; assumption || reflexivity.
Qed.

Lemma mutations_one (s s' : Viz) : Mutation s s' -> Mutations s s'.
Proof. intros H. exact (muts_step s s' s' H (muts_done s')). Qed.

Lemma mutations_app (s s1 s2 : Viz) :
  Mutations s s1 -> Mutations s1 s2 -> Mutations s s2.
Proof.
  intros H1 H2. induction H1 as [s|s a b Hm Hms IH]; [exact H2|].
  exact (muts_step s a s2 Hm (IH H2)).
Qed.

(** What [update_plots] leaves in [plot_handles] is a field assignment of
    [Mutation]. *)
Lemma plots_drawn_mutation (name : string) (s : Viz) :
  Mutation s (set_plot_handles (fst (plots_drawn name s)) s).
Proof.
  destruct (plots_drawn_prefix name s) as [n E].
  pose proof (plots_drawn_loaded name s) as L.
  rewrite E in L |- *. exact (mut_plots name n s L).
Qed.

Lemma switch_run_mutations (name : string) (s : Viz) :
  Mutations s (state_of (switch_run name s)).
Proof.
  rewrite switch_run_state.
  destruct (Py.dict_get name (runs s)) as [r|] eqn:Hget; [|apply muts_done].
  destruct (rows (r_traj r)) as [|cfg traj] eqn:Etraj.
  - apply mutations_one. exact (mut_load name r s Hget).
  - apply (muts_step s (load r s)); [exact (mut_load name r s Hget)|].
    apply mutations_one. apply plots_drawn_mutation.
Qed.

(** Every call, and every pass of the loop, is a sequence of the field
    assignments of [Mutation]. *)
Lemma perform_mutations (a : Action) (s : Viz) :
  Mutations s (state_of (perform a s)).
Proof.
  destruct a as [name r|name|idx| | |name|out|]; cbn [perform].
  - rewrite add_run_unfold. cbv zeta.
    destruct (Py.len (Py.dict_set name r (runs s)) =? 1).
    + eapply muts_step; [exact (mut_store name r s)|].
      eapply muts_step; [exact (mut_pick name _)|].
      apply switch_run_mutations.
    + apply mutations_one. exact (mut_store name r s).
  - apply switch_run_mutations.
  - destruct (trajectory s) as [traj|] eqn:Ht.
    + destruct (is_playing s) eqn:Hp.
      * rewrite seek_skips by (right; exact Hp). apply muts_done.
      * rewrite (seek_idle idx s traj Ht Hp).
        assert (G : cursor_in_range s ->
                    0 <= clamp idx traj /\
                    forall traj', trajectory s = Some traj' ->
                                  clamp idx traj <= Py.len traj').
        { intros _. split; [apply clamp_bounds|].
          intros traj'. rewrite Ht. intros [= <-]. apply clamp_bounds. }
        destruct (Py.index traj (clamp idx traj));
          apply mutations_one; exact (mut_cursor (clamp idx traj) s G).
    + rewrite seek_skips by (left; exact Ht). apply muts_done.
  - apply mutations_one. exact (mut_toggle s).
  - rewrite restart_state. apply mutations_one. apply mut_cursor.
    intros _. split; [lia|]. intros traj _. apply len_nonneg.
  - rewrite update_plots_spec. apply mutations_one. apply plots_drawn_mutation.
  - rewrite save_state. apply muts_done.
  - destruct (run_iteration_cases s)
      as [[_ E]|[(traj & e & _ & _ & _ & _ & E)
         |[(traj & w & cfg & _ & Ht & Hlt & _ & _ & E)
         |[(traj & w & _ & _ & _ & _ & _ & E)
         |(traj & _ & _ & _ & E)]]]]; rewrite E.
    + apply muts_done.
    + apply muts_done.
    + apply mutations_one. apply mut_cursor.
      intros [H0 _]. split; [lia|].
      intros traj'. rewrite Ht. intros [= <-]. lia.
    + apply muts_done.
    + apply mutations_one. exact (mut_halt s).
Qed.

(** What every field assignment keeps, every call keeps. *)
Lemma mutations_preserve (P : Viz -> Prop) :
  (forall s s', Mutation s s' -> P s -> P s') ->
  forall s s', Mutations s s' -> P s -> P s'.
Proof.
  intros Hstep s s' Hms. induction Hms as [s|s a b Hm Hms IH]; [tauto|].
  intros HP. apply IH. exact (Hstep s a Hm HP).
Qed.

Lemma perform_preserves (P : Viz -> Prop) :
  (forall s s', Mutation s s' -> P s -> P s') ->
  forall (a : Action) (s : Viz), P s -> P (state_of (perform a s)).
Proof.
  intros Hstep a s. exact (mutations_preserve P Hstep s _ (perform_mutations a s)).
Qed.

Lemma run_actions_preserves (P : Viz -> Prop) :
  (forall s s', Mutation s s' -> P s -> P s') ->
  forall (acts : list Action) (s : Viz), P s -> P (run_actions acts s).
Proof.
  intros Hstep acts. unfold run_actions.
  induction acts as [|a acts IH]; intros s HP; [exact HP|].
  cbn [fold_left]. apply IH. exact (perform_preserves P Hstep a s HP).
Qed.

Lemma keys_unique_step (s s' : Viz) :
  Mutation s s' -> keys_unique s -> keys_unique s'.
Proof.
  unfold keys_unique. intros [name r s0|name s0|name r s0 Hget|name n s0 L|i s0 G|s0|s0] H;
    cbn [runs set_runs set_dropdown_options set_dropdown_value load
         set_current_idx set_dt set_active set_plot_handles
         set_play_btn_name set_is_playing]; try exact H.
  apply dict_keys_set_nodup. exact H.
Qed.

Lemma options_mirror_store_step (s s' : Viz) :
  Mutation s s' -> options_mirror_store s -> options_mirror_store s'.
Proof.
  unfold options_mirror_store.
  intros [name r s0|name s0|name r s0 Hget|name n s0 L|i s0 G|s0|s0] H;
    cbn [runs dropdown_options set_runs set_dropdown_options set_dropdown_value
         load set_current_idx set_dt set_active set_plot_handles
         set_play_btn_name set_is_playing]; try exact H.
  right. reflexivity.
Qed.

Lemma label_agrees_step (s s' : Viz) :
  Mutation s s' -> label_agrees s -> label_agrees s'.
Proof.
  unfold label_agrees, label_of.
  intros [name r s0|name s0|name r s0 Hget|name n s0 L|i s0 G|s0|s0] H;
    cbn [is_playing play_btn_name set_runs set_dropdown_options
         set_dropdown_value load set_current_idx set_dt set_active
         set_plot_handles set_play_btn_name set_is_playing];
    try exact H; reflexivity.
Qed.

Lemma loaded_coherent_step (s s' : Viz) :
  Mutation s s' -> loaded_coherent s -> loaded_coherent s'.
Proof.
  unfold loaded_coherent.
  intros [name r s0|name s0|name r s0 Hget|name n s0 L|i s0 G|s0|s0] H;
    cbn [trajectory torques errors times dt set_runs set_dropdown_options
         set_dropdown_value load set_current_idx set_dt set_active
         set_plot_handles set_play_btn_name set_is_playing];
    try exact H; reflexivity.
Qed.

Lemma plots_of_one_run_step (s s' : Viz) :
  Mutation s s' -> plots_of_one_run s -> plots_of_one_run s'.
Proof.
  unfold plots_of_one_run.
  intros [name r s0|name s0|name r s0 Hget|name n s0 L|i s0 G|s0|s0] H;
    cbn [trajectory plot_handles set_runs set_dropdown_options
         set_dropdown_value load set_current_idx set_dt set_active
         set_plot_handles set_play_btn_name set_is_playing];
    try exact H.
  - destruct H as [H _]. split; [exact H | discriminate].
  - split; [exists name, n; reflexivity | exact L].
Qed.

Lemma speed_step (s s' : Viz) : Mutation s s' -> speed s' = speed s.
Proof. intros []; reflexivity. Qed.

Lemma cursor_in_range_step (s s' : Viz) :
  Mutation s s' -> cursor_in_range s -> cursor_in_range s'.
Proof.
  intros [name r s0|name s0|name r s0 Hget|name n s0 L|i s0 G|s0|s0] H;
    try (apply (cursor_in_range_same s0); [reflexivity | reflexivity | exact H]).
  - split; [cbn; lia|]. cbn. intros traj [= <-]. apply len_nonneg.
  - exact (G H).
Qed.

(** ** The run store *)

(** X1: after [add_run(name, ...)] the store maps [name] to the run just
    given and every other name to what it mapped to before, whether or not
    the call went on to select the run or raised there. *)
Theorem add_run_then_lookup (name k : string) (r : Run) (s : Viz) :
  Py.dict_get k (runs (state_of (add_run name r s))) =
  if String.eqb name k then Some r else Py.dict_get k (runs s).
Proof.
  rewrite add_run_runs.
  destruct (String.eqb name k) eqn:E.
  - apply String.eqb_eq in E. subst k. apply dict_get_set_same.
  - apply dict_get_set_other. intros ->. rewrite String.eqb_refl in E.
    discriminate E.
Qed.

(** X2: [add_run] keeps the order of the names: a name already stored
    keeps its place, a new name goes last; the dropdown is given exactly the
    stored names in that order. *)
Theorem add_run_keeps_insertion_order (name : string) (r : Run) (s : Viz) :
  Py.dict_keys (runs (state_of (add_run name r s))) =
  (if Py.dict_mem name (runs s) then Py.dict_keys (runs s)
   else Py.dict_keys (runs s) ++ [name])
  /\ dropdown_options (state_of (add_run name r s))
     = Py.dict_keys (runs (state_of (add_run name r s))).
Proof.
  rewrite add_run_runs, add_run_options. split; [apply dict_keys_set|reflexivity].
Qed.

(** X3: stored names stay pairwise distinct across every method call and
    every pass of the loop. *)
Theorem keys_unique_preserved (a : Action) (s : Viz) :
  keys_unique s -> keys_unique (state_of (perform a s)).
Proof. exact (perform_preserves keys_unique keys_unique_step a s). Qed.

Lemma keys_unique_preserved_witness :
  keys_unique vizAB
  /\ Py.dict_keys (runs vizAB) = ["A"; "B"]
  /\ keys_unique (state_of (perform (AddRun "A" runB) vizAB)).
Proof.
  assert (H : keys_unique vizAB).
  { unfold keys_unique. change (Py.dict_keys (runs vizAB)) with ["A"; "B"].
    constructor.
    - intros [H|[]]. discriminate H.
    - constructor; [intros [] | constructor]. }
  split; [exact H|]. split; [reflexivity|].
  apply (keys_unique_preserved (AddRun "A" runB) vizAB). exact H.
Defined.

(** X4: once the dropdown offers the stored names it keeps doing so: no
    call lets the options and the store drift apart. *)
Theorem options_mirror_store_preserved (a : Action) (s : Viz) :
  options_mirror_store s -> options_mirror_store (state_of (perform a s)).
Proof.
  exact (perform_preserves options_mirror_store options_mirror_store_step a s).
Qed.

Lemma options_mirror_store_preserved_witness :
  options_mirror_store vizA
  /\ options_mirror_store (state_of (perform (AddRun "B" runB) vizA))
  /\ dropdown_options (state_of (perform (AddRun "B" runB) vizA)) = ["A"; "B"].
Proof.
  assert (H : options_mirror_store vizA) by (right; reflexivity).
  split; [exact H|]. split; [|reflexivity].
  apply (options_mirror_store_preserved (AddRun "B" runB) vizA). exact H.
Defined.

(** ** The play button *)

(** X5: the button's label follows [is_playing] across every call and
    every pass of the loop: "Pause" while playing, "Play" otherwise,
    including after the loop has stopped playback by itself. *)
Theorem label_agrees_preserved (a : Action) (s : Viz) :
  label_agrees s -> label_agrees (state_of (perform a s)).
Proof. exact (perform_preserves label_agrees label_agrees_step a s). Qed.

Lemma label_agrees_preserved_witness :
  label_agrees vizA_playing_at_1
  /\ play_btn_name vizA_playing_at_1 = "Pause"
  /\ label_agrees (state_of (perform Tick vizA_playing_at_1)).
Proof.
  assert (H : label_agrees vizA_playing_at_1) by reflexivity.
  split; [exact H|]. split; [reflexivity|].
  apply (label_agrees_preserved Tick vizA_playing_at_1). exact H.
Defined.

(** X6: two [toggle] calls in a row put every field back, label
    included, and call no collaborator. *)
Theorem toggle_twice_restores (s : Viz) :
  label_agrees s ->
  state_of (toggle (state_of (toggle s))) = s
  /\ trace_of (toggle s) ++ trace_of (toggle (state_of (toggle s))) = []
  /\ outcome_of (toggle (state_of (toggle s))) = Returned tt.
Proof.
  unfold label_agrees, label_of. intros H.
  destruct s as [p tj tq er ti ci d sp rs ph dop dv pb].
  cbn in H. subst pb. destruct p; repeat split.
Qed.

Lemma toggle_twice_restores_witness :
  label_agrees vizAB
  /\ state_of (toggle (state_of (toggle vizAB))) = vizAB.
Proof.
  assert (H : label_agrees vizAB) by reflexivity.
  split; [exact H|].
  destruct (toggle_twice_restores vizAB H) as [E _]. exact E.
Defined.

(** ** The loaded run *)

(** X7: the loaded trajectory, torques, errors and timestamps are there
    together or not at all, and [dt] is always the interval of the loaded
    timestamps ([times[1] - times[0]], or 0.01 with fewer than two), across
    every call and every pass of the loop. *)
Theorem loaded_coherent_preserved (a : Action) (s : Viz) :
  loaded_coherent s -> loaded_coherent (state_of (perform a s)).
Proof. exact (perform_preserves loaded_coherent loaded_coherent_step a s). Qed.

Lemma loaded_coherent_preserved_witness :
  loaded_coherent init
  /\ loaded_coherent (state_of (perform (AddRun "A" runA) init))
  /\ dt (state_of (perform (AddRun "A" runA) init)) = NpFloat 0.1%float.
Proof.
  assert (H : loaded_coherent init) by reflexivity.
  split; [exact H|]. split; [|reflexivity].
  apply (loaded_coherent_preserved (AddRun "A" runA) init). exact H.
Defined.

(** X8: no method and no pass of the loop assigns [speed]. *)
Theorem speed_never_assigned (a : Action) (s : Viz) :
  speed (state_of (perform a s)) = speed s.
Proof.
  apply (perform_preserves (fun s' => speed s' = speed s)); [|reflexivity].
  intros s1 s2 Hm H. rewrite (speed_step s1 s2 Hm). exact H.
Qed.

(** ** The plots *)

(** X9: at any time the plots held are the first few of the three plots of
    one run, in order, and there is none while no trajectory is loaded: all
    three after an [update_plots] that returned, fewer after one that raised
    on a missing column.  Plots never pile up across calls. *)
Theorem plots_of_one_run_preserved (a : Action) (s : Viz) :
  plots_of_one_run s -> plots_of_one_run (state_of (perform a s)).
Proof. exact (perform_preserves plots_of_one_run plots_of_one_run_step a s). Qed.

Lemma plots_of_one_run_preserved_witness :
  plots_of_one_run vizA
  /\ plots_of_one_run (state_of (perform (AddRun "N" run_narrow) vizA))
  /\ plots_of_one_run (state_of (perform (SwitchRun "N")
                         (state_of (perform (AddRun "N" run_narrow) vizA))))
  /\ plot_handles (state_of (perform (SwitchRun "N")
                      (state_of (perform (AddRun "N" run_narrow) vizA))))
     = ["N: Joint Angles"]
  /\ outcome_of (perform (SwitchRun "N")
                   (state_of (perform (AddRun "N" run_narrow) vizA)))
     = Raised IndexError.
Proof.
  assert (H : plots_of_one_run vizA).
  { split; [exists "A", 3%nat; reflexivity | discriminate]. }
  pose proof (plots_of_one_run_preserved (AddRun "N" run_narrow) vizA H) as H1.
  split; [exact H|]. split; [exact H1|]. split; [|split; reflexivity].
  exact (plots_of_one_run_preserved (SwitchRun "N") _ H1).
Defined.

(** X10: calling [update_plots] twice for the same name leaves the same
    fields as calling it once and ends the same way; the second call removes
    exactly the plots the first one got to add, in order, and adds the same
    ones again. *)
Theorem update_plots_twice (name : string) (s : Viz) :
  update_plots name (state_of (update_plots name s)) =
  (state_of (update_plots name s),
   map RemovePlot (plot_handles (state_of (update_plots name s)))
   ++ map AddPlotly (plot_handles (state_of (update_plots name s))),
   outcome_of (update_plots name s)).
Proof.
  rewrite (update_plots_spec name (state_of (update_plots name s))).
  rewrite (update_plots_spec name s).
  unfold state_of, outcome_of. cbn [fst snd].
  rewrite (plots_drawn_same name s (set_plot_handles _ s))
    by reflexivity.
  reflexivity.
Qed.

(** ** Which fields a call may touch *)

Lemma restart_cases (s : Viz) :
  restart s =
  match option_map rows (trajectory s) with
  | None => (set_current_idx 0 s, [], Returned tt)
  | Some [] => (set_current_idx 0 s, [], Raised IndexError)
  | Some (cfg :: _) => (set_current_idx 0 s, [UpdateCfg cfg], Returned tt)
  end.
Proof.
  unfold restart. rewrite bind_assign, bind_get.
  cbn [trajectory set_current_idx].
  destruct (trajectory s) as [[[|cfg traj] nc]|]; reflexivity.
Qed.

Lemma switch_run_is_playing (name : string) (s : Viz) :
  is_playing (state_of (switch_run name s)) = is_playing s.
Proof.
  rewrite switch_run_state.
  destruct (Py.dict_get name (runs s)) as [r|]; [|reflexivity].
  destruct (rows (r_traj r)); reflexivity.
Qed.

(** The store and [is_playing] after a call, action by action. *)
Lemma perform_frame (a : Action) (s : Viz) :
  runs (state_of (perform a s)) =
  match a with
  | AddRun name r => Py.dict_set name r (runs s)
  | _ => runs s
  end
  /\ match a with
     | Toggle => is_playing (state_of (perform a s)) = negb (is_playing s)
     | Tick => is_playing s = false ->
               is_playing (state_of (perform a s)) = false
     | _ => is_playing (state_of (perform a s)) = is_playing s
     end.
Proof.
  destruct a as [name r|name|idx| | |name|out|]; cbn [perform].
  - split; [apply add_run_runs|].
    rewrite add_run_unfold. cbv zeta.
    destruct (Py.len (Py.dict_set name r (runs s)) =? 1);
      [rewrite switch_run_is_playing|]; reflexivity.
  - split; [apply switch_run_runs | apply switch_run_is_playing].
  - destruct (trajectory s) as [traj|] eqn:Ht.
    + destruct (is_playing s) eqn:Hp.
      * rewrite seek_skips by (right; exact Hp). split; [reflexivity | exact Hp].
      * rewrite (seek_idle idx s traj Ht Hp).
        destruct (Py.index traj (clamp idx traj)); split; (reflexivity || exact Hp).
    + rewrite seek_skips by (left; exact Ht). split; reflexivity.
  - split; reflexivity.
  - rewrite restart_state. split; reflexivity.
  - rewrite update_plots_spec. split; reflexivity.
  - rewrite save_state. split; reflexivity.
  - destruct (run_iteration_cases s)
      as [[_ E]|[(traj & e & Hp & _ & _ & _ & E)
         |[(traj & w & cfg & Hp & _ & _ & _ & _ & E)
         |[(traj & w & Hp & _ & _ & _ & _ & E)
         |(traj & Hp & _ & _ & E)]]]]; rewrite E;
      (split; [reflexivity|]); intros Hf;
      try (rewrite Hp in Hf; discriminate Hf); try exact Hf.
Qed.

(** X11: only [add_run] changes the store, and it only sets the entry of
    the name it is given: no call removes a stored name. *)
Theorem only_add_run_changes_store (a : Action) (s : Viz) :
  runs (state_of (perform a s)) =
  match a with
  | AddRun name r => Py.dict_set name r (runs s)
  | _ => runs s
  end
  /\ forall k, In k (Py.dict_keys (runs s)) ->
               In k (Py.dict_keys (runs (state_of (perform a s)))).
Proof.
  destruct (perform_frame a s) as [E _]. split; [exact E|].
  rewrite E. intros k Hk. destruct a; try exact Hk.
  rewrite dict_keys_set. destruct (Py.dict_mem name (runs s)); [exact Hk|].
  apply in_or_app. left. exact Hk.
Qed.

Lemma only_add_run_changes_store_witness :
  In "B" (Py.dict_keys (runs vizAB))
  /\ runs (state_of (perform (SwitchRun "A") vizAB)) = runs vizAB
  /\ In "B" (Py.dict_keys (runs (state_of (perform (AddRun "A" runB) vizAB)))).
Proof.
  assert (H : In "B" (Py.dict_keys (runs vizAB))) by (right; left; reflexivity).
  split; [exact H|].
  destruct (only_add_run_changes_store (SwitchRun "A") vizAB) as [E _].
  split; [exact E|].
  destruct (only_add_run_changes_store (AddRun "A" runB) vizAB) as [_ K].
  exact (K "B" H).
Defined.

(** X12: only [toggle] starts playback.  [toggle] negates [is_playing]; a
    pass of the loop can clear it but never sets it; every other method
    leaves it as it is. *)
Theorem only_toggle_starts_playback (a : Action) (s : Viz) :
  match a with
  | Toggle => is_playing (state_of (perform a s)) = negb (is_playing s)
  | Tick => is_playing s = false ->
            is_playing (state_of (perform a s)) = false
  | _ => is_playing (state_of (perform a s)) = is_playing s
  end.
Proof. destruct (perform_frame a s) as [_ E]. exact E. Qed.

Lemma only_toggle_starts_playback_witness :
  is_playing vizA_finished = false
  /\ is_playing (state_of (perform Tick vizA_finished)) = false
  /\ is_playing (state_of (perform Restart vizA_playing_at_1)) = true.
Proof.
  split; [reflexivity|]. split.
  - apply (only_toggle_starts_playback Tick vizA_finished). reflexivity.
  - exact (only_toggle_starts_playback Restart vizA_playing_at_1).
Defined.

(** ** Exceptions *)

Lemma clamp_index_none (idx : Z) (traj : list Vec) :
  Py.index traj (clamp idx traj) = None -> traj = [].
Proof.
  intros Hidx. destruct traj as [|cfg traj]; [reflexivity|].
  exfalso.
  assert (Hn : 1 <= Py.len (cfg :: traj))
    by (unfold Py.len; cbn [List.length]; lia).
  destruct (index_in_range _ _ (clamp_on_sample idx (cfg :: traj) Hn))
    as [a [E _]].
  rewrite E in Hidx. discriminate Hidx.
Qed.

(** X13: [seek] and [restart] raise exactly when the loaded trajectory has
    no sample ([seek] only while not playing), and what they raise is
    [IndexError]; [toggle] never raises. *)
Theorem seek_restart_raise_iff_no_sample (s : Viz) :
  (forall idx e,
      outcome_of (seek idx s) = Raised e <->
      e = IndexError /\ is_playing s = false
      /\ exists traj, trajectory s = Some traj /\ rows traj = [])
  /\ (forall e,
        outcome_of (restart s) = Raised e <->
        e = IndexError
        /\ exists traj, trajectory s = Some traj /\ rows traj = [])
  /\ outcome_of (toggle s) = Returned tt.
Proof.
  split; [|split; [|reflexivity]].
  - intros idx e. destruct (trajectory s) as [traj|] eqn:Ht.
    + destruct (is_playing s) eqn:Hp.
      * rewrite seek_skips by (right; exact Hp). split; [intros [=]|].
        intros [_ [H _]]. discriminate H.
      * rewrite (seek_idle idx s traj Ht Hp).
        destruct (Py.index traj (clamp idx traj)) as [cfg|] eqn:Hidx.
        -- split; [intros [=]|]. intros [_ [_ [traj' [[= <-] Hnil]]]].
           rewrite Hnil, index_empty in Hidx. discriminate Hidx.
        -- split.
           ++ intros [= <-]. split; [reflexivity|]. split; [reflexivity|].
              exists traj. split; [reflexivity|].
              exact (clamp_index_none idx traj Hidx).
           ++ intros [-> _]. reflexivity.
    + rewrite seek_skips by (left; exact Ht). split; [intros [=]|].
      intros [_ [_ [traj [H _]]]]. discriminate H.
  - intros e. rewrite restart_cases.
    destruct (trajectory s) as [[[|cfg traj] nc]|] eqn:Ht; cbn [option_map rows].
    + split.
      * intros [= <-]. split; [reflexivity|].
        exists (mkArray [] nc). split; reflexivity.
      * intros [-> _]. reflexivity.
    + split; [intros [=]|]. intros [_ [traj' [[= <-] Hnil]]]. discriminate Hnil.
    + split; [intros [=]|]. intros [_ [traj' [H _]]]. discriminate H.
Qed.

Lemma seek_restart_raise_iff_no_sample_witness :
  trajectory vizA_empty_selected = Some no_rows
  /\ outcome_of (seek 5 vizA_empty_selected) = Raised IndexError
  /\ outcome_of (restart vizA_empty_selected) = Raised IndexError.
Proof.
  destruct (seek_restart_raise_iff_no_sample vizA_empty_selected) as [Hs [Hr _]].
  split; [reflexivity|]. split.
  - apply (Hs 5 IndexError). split; [reflexivity|]. split; [reflexivity|].
    exists no_rows. split; reflexivity.
  - apply (Hr IndexError). split; [reflexivity|].
    exists no_rows. split; reflexivity.
Defined.

(** X24: selecting a stored run that has a first sample, six columns of
    joint angles, six of torques and two of errors returns: the pose of
    sample 0 is sent, the old plots are removed and the three plots of the
    run are added and held.  With a column missing it raises [IndexError]
    instead. *)
Theorem switch_run_well_shaped_returns (name : string) (r : Run) (s : Viz)
        (cfg : Vec) (rest : list Vec) :
  Py.dict_get name (runs s) = Some r ->
  rows (r_traj r) = cfg :: rest ->
  (switch_run name s =
   (set_plot_handles (plot_titles name) (load r s),
    UpdateCfg cfg :: map RemovePlot (plot_handles s)
    ++ map AddPlotly (plot_titles name),
    Returned tt)
   <-> (6 <= ncols (r_traj r))%nat /\ (6 <= ncols (r_torques r))%nat
       /\ (2 <= ncols (r_errors r))%nat)
  /\ (outcome_of (switch_run name s) = Raised IndexError
      <-> ~ ((6 <= ncols (r_traj r))%nat /\ (6 <= ncols (r_torques r))%nat
             /\ (2 <= ncols (r_errors r))%nat)).
Proof.
  intros Hget Hrows. rewrite (switch_run_stored name r s Hget), Hrows.
  unfold outcome_of. cbn [snd].
  unfold plots_drawn, slice_error.
  cbn [trajectory torques errors load set_current_idx set_dt set_active].
  destruct (Nat.leb_spec 6 (ncols (r_traj r))) as [H1|H1];
    [destruct (Nat.leb_spec 6 (ncols (r_torques r))) as [H2|H2];
     [destruct (Nat.leb_spec 2 (ncols (r_errors r))) as [H3|H3]|]|];
    cbn [fst snd firstn plot_titles map app]; split; split;
    try (intros _; repeat split; assumption);
    try (intros [= ]; fail);
    try (intros [K1 [K2 K3]]; lia);
    try (intros H; exfalso; apply H; repeat split; assumption);
    try (intros _ [K1 [K2 K3]]; lia);
    try reflexivity;
    try discriminate.
Qed.

Lemma switch_run_well_shaped_returns_witness :
  Py.dict_get "A" (runs vizAB) = Some runA
  /\ outcome_of (switch_run "A" vizAB) = Returned tt
  /\ plot_handles (state_of (switch_run "A" vizAB))
     = ["A: Joint Angles"; "A: Joint Torques"; "A: Tracking Errors"].
Proof.
  destruct (switch_run_well_shaped_returns "A" runA vizAB (row 0%float)
              [row 1%float; row 2%float] eq_refl eq_refl) as [[_ H] _].
  rewrite H; [repeat split|].
  cbn. repeat split; lia.
Defined.

(** ** Playback from start to end *)

Lemma poses_app (a b : list Event) : poses (a ++ b) = poses a ++ poses b.
Proof.
  induction a as [|e a IH]; [reflexivity|].
  destruct e; cbn [app poses]; rewrite IH; reflexivity.
Qed.

Lemma poses_polls (d : float) (n : nat) : poses (repeat (Sleep d) n) = [].
Proof. induction n as [|n IH]; [reflexivity | exact IH]. Qed.

Lemma skipn_cons_nth_error {A : Type} (l : list A) (n : nat) (a : A) :
  nth_error l n = Some a -> skipn n l = a :: skipn (S n) l.
Proof.
  revert l. induction n as [|n IH]; intros [|x l] H; try discriminate H.
  - injection H as ->. reflexivity.
  - cbn [nth_error] in H. cbn [skipn]. exact (IH l H).
Qed.

(** From a state with the cursor in range, the only exception the loop can
    raise is the one of the step sleep; if the step sleep returns, every pass
    returns, and the cursor stays in range. *)
Lemma run_loop_in_range (n : nat) :
  forall s : Viz,
    cursor_in_range s ->
    (forall e, outcome_of (run_loop n s) = Raised e -> step_wait s = Raised e)
    /\ (forall w, step_wait s = Returned w ->
                  cursor_in_range (state_of (run_loop n s))).
Proof.
  induction n as [|n IH]; intros s Hinv.
  { split; [intros e [=] | intros w _; exact Hinv]. }
  pose proof (perform_preserves cursor_in_range cursor_in_range_step Tick s Hinv)
    as Hnext.
  cbn [perform] in Hnext.
  destruct (run_iteration_cases s)
    as [[_ E]|[(traj & e0 & _ & _ & _ & Hw & E)
       |[(traj & w0 & cfg & _ & _ & _ & Hw & _ & E)
       |[(traj & w0 & _ & Ht & Hlt & _ & Hidx & E)
       |(traj & _ & _ & _ & E)]]]].
  - rewrite E in Hnext. rewrite (run_loop_succ n s _ _ E).
    exact (IH s Hnext).
  - cbn [run_loop].
    rewrite (bind_raised run_iteration (fun _ => run_loop n) s s [] e0 E).
    split.
    + intros e [= <-]. exact Hw.
    + intros w Hw'. rewrite Hw in Hw'. discriminate Hw'.
  - rewrite E in Hnext. rewrite (run_loop_succ n s _ _ E).
    unfold state_of in Hnext. cbn [fst] in Hnext.
    exact (IH (set_current_idx (current_idx s + 1) s) Hnext).
  - exfalso. destruct Hinv as [H0 _].
    destruct (index_in_range traj (current_idx s) (conj H0 Hlt)) as [c [Ec _]].
    rewrite Ec in Hidx. discriminate Hidx.
  - rewrite E in Hnext. rewrite (run_loop_succ n s _ _ E).
    unfold state_of in Hnext. cbn [fst] in Hnext.
    rewrite run_loop_poll by (left; reflexivity).
    split; [intros e [=] | intros w _; exact Hnext].
Qed.

(** The poses sent while playing are the samples from the cursor on, one
    per pass, in order. *)
Lemma poses_run_loop (n : nat) :
  forall (s : Viz) (traj : Array) (w : float),
    is_playing s = true ->
    trajectory s = Some traj ->
    0 <= current_idx s <= Py.len traj ->
    step_wait s = Returned w ->
    poses (trace_of (run_loop n s))
    = firstn n (skipn (Z.to_nat (current_idx s)) traj).
Proof.
  induction n as [|n IH]; intros s traj w Hp Ht Hi Hw; [reflexivity|].
  destruct (Z_lt_le_dec (current_idx s) (Py.len traj)) as [Hlt|Hge].
  - destruct (run_iteration_step s traj w Hp Ht) as [cfg [Hnth E]];
      [lia | exact Hw |].
    rewrite (run_loop_succ n s _ _ E). unfold trace_of at 1. cbn [fst snd].
    rewrite poses_app. cbn [poses app].
    rewrite (IH (set_current_idx (current_idx s + 1) s) traj w Hp Ht)
      by (cbn [current_idx set_current_idx]; lia || exact Hw).
    cbn [current_idx set_current_idx].
    rewrite (skipn_cons_nth_error traj _ cfg Hnth). cbn [firstn].
    replace (Z.to_nat (current_idx s + 1)) with (S (Z.to_nat (current_idx s)))
      by lia.
    reflexivity.
  - rewrite (run_loop_succ n s _ _ (run_iteration_halt s traj Hp Ht Hge)).
    rewrite run_loop_poll by (left; reflexivity).
    unfold trace_of. cbn [fst snd app poses]. rewrite poses_polls.
    rewrite skipn_all2 by (unfold Py.len in Hi, Hge; lia).
    destruct n; reflexivity.
Qed.

(** X14: from a state with the cursor in range, the only exception the
    scheduling loop can raise, however many passes it makes, is the one of
    its step sleep [time.sleep(dt / speed)]: when that sleep is one
    [time.sleep] takes, the loop never raises. *)
Theorem run_loop_raises_only_from_sleep (n : nat) (s : Viz) :
  cursor_in_range s ->
  (forall e, outcome_of (run_loop n s) = Raised e -> step_wait s = Raised e)
  /\ (forall w, step_wait s = Returned w ->
                outcome_of (run_loop n s) = Returned tt).
Proof.
  intros Hinv. destruct (run_loop_in_range n s Hinv) as [H _].
  split; [exact H|]. intros w Hw.
  destruct (outcome_of (run_loop n s)) as [[]|e] eqn:E; [reflexivity|].
  rewrite (H e eq_refl) in Hw. discriminate Hw.
Qed.

Lemma run_loop_raises_only_from_sleep_witness :
  cursor_in_range (state_of (toggle vizA_empty_selected))
  /\ outcome_of (run_loop 5 (state_of (toggle vizA_empty_selected))) = Returned tt
  /\ cursor_in_range viz_slow_playing
  /\ outcome_of (run_loop 5 viz_slow_playing) = Raised OverflowError
  /\ step_wait viz_slow_playing = Raised OverflowError.
Proof.
  assert (H : cursor_in_range (state_of (toggle vizA_empty_selected))).
  { split; [vm_compute; discriminate|].
    intros traj [= <-]. vm_compute. discriminate. }
  assert (K : cursor_in_range viz_slow_playing).
  { split; [vm_compute; discriminate|].
    intros traj [= <-]. vm_compute. discriminate. }
  destruct (run_loop_raises_only_from_sleep 5 _ H) as [_ H2].
  destruct (run_loop_raises_only_from_sleep 5 _ K) as [K1 _].
  split; [exact H|]. split; [exact (H2 0.01%float eq_refl)|].
  split; [exact K|]. split; [reflexivity|].
  exact (K1 OverflowError eq_refl).
Defined.

(** X15: while playing, with a step interval that [time.sleep] takes, the
    poses sent by the first n passes of the loop are the next n samples from
    the cursor on, each once and in order (fewer when the trajectory ends
    first). *)
Theorem poses_in_playback_order (n : nat) (s : Viz) (traj : Array) (w : float) :
  is_playing s = true ->
  trajectory s = Some traj ->
  0 <= current_idx s <= Py.len traj ->
  step_wait s = Returned w ->
  poses (trace_of (run_loop n s))
  = firstn n (skipn (Z.to_nat (current_idx s)) traj).
Proof. exact (poses_run_loop n s traj w). Qed.

Lemma poses_in_playback_order_witness :
  is_playing vizA_playing_at_1 = true
  /\ trajectory vizA_playing_at_1 = Some (r_traj runA)
  /\ current_idx vizA_playing_at_1 = 1
  /\ step_wait vizA_playing_at_1 = Returned 0.1%float
  /\ poses (trace_of (run_loop 1 vizA_playing_at_1)) = [row 1%float]
  /\ poses (trace_of (run_loop 9 vizA_playing_at_1)) = [row 1%float; row 2%float].
Proof.
  assert (Hi : 0 <= current_idx vizA_playing_at_1 <= Py.len (r_traj runA))
    by (vm_compute; split; discriminate).
  split; [reflexivity|]. split; [reflexivity|]. split; [reflexivity|].
  split; [reflexivity|].
  rewrite (poses_in_playback_order 1 vizA_playing_at_1 (r_traj runA) 0.1%float
             eq_refl eq_refl Hi eq_refl).
  rewrite (poses_in_playback_order 9 vizA_playing_at_1 (r_traj runA) 0.1%float
             eq_refl eq_refl Hi eq_refl).
  split; reflexivity.
Defined.

(** X16: playback runs to the end and stops by itself: playing from cursor
    c on a trajectory of N samples, with a step interval that [time.sleep]
    takes, any number of passes above N - c leaves [is_playing] false and the
    cursor at N, after every sample from c on was sent once, in order,
    without an exception. *)
Theorem playback_completes (n : nat) (s : Viz) (traj : Array) (w : float) :
  is_playing s = true ->
  trajectory s = Some traj ->
  0 <= current_idx s <= Py.len traj ->
  step_wait s = Returned w ->
  Py.len traj - current_idx s < Z.of_nat n ->
  is_playing (state_of (run_loop n s)) = false
  /\ current_idx (state_of (run_loop n s)) = Py.len traj
  /\ poses (trace_of (run_loop n s)) = skipn (Z.to_nat (current_idx s)) traj
  /\ outcome_of (run_loop n s) = Returned tt.
Proof.
  intros Hp Ht Hi Hw Hn.
  destruct (run_loop_playing n s traj w Hp Ht Hi Hw) as [H1 [H2 [_ H4]]].
  rewrite H1, H2, H4, (poses_run_loop n s traj w Hp Ht Hi Hw).
  split; [apply Z.leb_gt; lia|]. split; [lia|]. split; [|reflexivity].
  apply firstn_all2. rewrite length_skipn. unfold Py.len in Hi, Hn. lia.
Qed.

Lemma playback_completes_witness :
  is_playing vizA_playing = true
  /\ trajectory vizA_playing = Some (r_traj runA)
  /\ current_idx vizA_playing = 0
  /\ step_wait vizA_playing = Returned 0.1%float
  /\ is_playing (state_of (run_loop 4 vizA_playing)) = false
  /\ current_idx (state_of (run_loop 4 vizA_playing)) = 3
  /\ poses (trace_of (run_loop 4 vizA_playing))
     = [row 0%float; row 1%float; row 2%float].
Proof.
  destruct (playback_completes 4 vizA_playing (r_traj runA) 0.1%float
              eq_refl eq_refl)
    as [H1 [H2 [H3 _]]];
    [vm_compute; split; discriminate | reflexivity | reflexivity |].
  split; [reflexivity|]. split; [reflexivity|]. split; [reflexivity|].
  split; [reflexivity|].
  split; [exact H1|]. split; [exact H2 | exact H3].
Defined.

(** X17: once playback has ended, [toggle] alone does not replay: with the
    cursor at or past the end of the loaded trajectory, the first pass after
    [toggle] clears [is_playing] again and relabels the button, and no pass
    sends a pose or moves the cursor. *)
Theorem toggle_at_end_does_not_replay (n : nat) (s : Viz) (traj : Array) :
  is_playing s = false ->
  trajectory s = Some traj ->
  Py.len traj <= current_idx s ->
  run_loop (S n) (state_of (toggle s)) =
  (set_play_btn_name "Play" s, repeat (Sleep poll_interval) (S n), Returned tt).
Proof.
  intros Hp Ht Hge.
  assert (E : run_iteration (state_of (toggle s)) =
              (set_play_btn_name "Play" s, [Sleep poll_interval], Returned tt)).
  { rewrite (run_iteration_halt (state_of (toggle s)) traj);
      [| cbn; rewrite Hp; reflexivity | exact Ht | exact Hge].
    destruct s as [p tj tq er ti ci d sp rs ph dop dv pb].
    cbn in Hp. subst p. reflexivity. }
  rewrite (run_loop_succ n _ _ _ E).
  rewrite run_loop_poll by (left; exact Hp). reflexivity.
Qed.

Lemma toggle_at_end_does_not_replay_witness :
  is_playing vizA_finished = false
  /\ trajectory vizA_finished = Some (r_traj runA)
  /\ current_idx vizA_finished = 3
  /\ state_of (run_loop 3 (state_of (toggle vizA_finished))) = vizA_finished
  /\ poses (trace_of (run_loop 3 (state_of (toggle vizA_finished)))) = [].
Proof.
  split; [reflexivity|]. split; [reflexivity|]. split; [reflexivity|].
  rewrite (toggle_at_end_does_not_replay 2 vizA_finished (r_traj runA)
             eq_refl eq_refl);
    [split; reflexivity | vm_compute; discriminate].
Defined.

(** ** Restarting *)

(** X18: [restart] does not pause.  Called while playing on a trajectory
    with a first sample, it sends that sample's pose, puts the cursor at 0
    and changes nothing else; with a step interval that [time.sleep] takes,
    the loop then plays on from sample 0. *)
Theorem restart_while_playing_replays (s : Viz) (traj : Array) (cfg : Vec)
        (rest : list Vec) (w : float) :
  is_playing s = true ->
  trajectory s = Some traj ->
  rows traj = cfg :: rest ->
  step_wait s = Returned w ->
  restart s = (set_current_idx 0 s, [UpdateCfg cfg], Returned tt)
  /\ forall n : nat,
       poses (trace_of (run_loop n (state_of (restart s))))
       = firstn n (cfg :: rest)
       /\ current_idx (state_of (run_loop n (state_of (restart s))))
          = Z.min (Py.len traj) (Z.of_nat n).
Proof.
  intros Hp Ht Hrows Hw.
  assert (E : restart s = (set_current_idx 0 s, [UpdateCfg cfg], Returned tt))
    by (rewrite restart_cases, Ht; cbn [option_map]; rewrite Hrows; reflexivity).
  split; [exact E|]. intros n. rewrite E.
  change (state_of (set_current_idx 0 s, [UpdateCfg cfg], @Returned unit tt))
    with (set_current_idx 0 s).
  assert (Hi : 0 <= current_idx (set_current_idx 0 s) <= Py.len traj)
    by (cbn [current_idx set_current_idx]; split; [lia | apply len_nonneg]).
  rewrite (poses_run_loop n (set_current_idx 0 s) traj w Hp Ht Hi Hw).
  destruct (run_loop_playing n (set_current_idx 0 s) traj w Hp Ht Hi Hw)
    as [H1 _].
  rewrite H1. cbn [current_idx set_current_idx Z.to_nat skipn].
  rewrite Hrows. split; reflexivity.
Qed.

Lemma restart_while_playing_replays_witness :
  is_playing vizA_playing_at_1 = true
  /\ trajectory vizA_playing_at_1 = Some (r_traj runA)
  /\ step_wait vizA_playing_at_1 = Returned 0.1%float
  /\ is_playing (state_of (restart vizA_playing_at_1)) = true
  /\ poses (trace_of (run_loop 2 (state_of (restart vizA_playing_at_1))))
     = [row 0%float; row 1%float].
Proof.
  destruct (restart_while_playing_replays vizA_playing_at_1 (r_traj runA)
              (row 0%float) [row 1%float; row 2%float] 0.1%float
              eq_refl eq_refl eq_refl eq_refl) as [_ H].
  destruct (H 2%nat) as [H2 _].
  split; [reflexivity|]. split; [reflexivity|]. split; [reflexivity|].
  split; [reflexivity|]. exact H2.
Defined.

(** X19: from an idle state with a trajectory of N samples loaded and a
    step interval that [time.sleep] takes, [restart], [toggle] and N + 1
    passes of the loop show the whole trajectory again: [restart] sends the
    pose of sample 0 itself, the loop then sends every sample once, in order
    (so sample 0 is sent twice), and ends idle with the cursor at N, without
    raising. *)
Theorem restart_then_toggle_replays_all (s : Viz) (traj : Array) (w : float) :
  is_playing s = false ->
  trajectory s = Some traj ->
  step_wait s = Returned w ->
  let s1 := state_of (restart s) in
  let s2 := state_of (toggle s1) in
  poses (trace_of (restart s) ++ trace_of (toggle s1)
         ++ trace_of (run_loop (S (List.length traj)) s2))
  = firstn 1 traj ++ traj
  /\ is_playing (state_of (run_loop (S (List.length traj)) s2)) = false
  /\ current_idx (state_of (run_loop (S (List.length traj)) s2)) = Py.len traj
  /\ outcome_of (run_loop (S (List.length traj)) s2) = Returned tt.
Proof.
  intros Hp Ht Hw. cbv zeta.
  assert (Etr : poses (trace_of (restart s)) = firstn 1 traj).
  { rewrite restart_cases, Ht. cbn [option_map].
    destruct (rows traj) as [|cfg rest]; reflexivity. }
  rewrite restart_state.
  set (s2 := state_of (toggle (set_current_idx 0 s))).
  assert (Hp2 : is_playing s2 = true) by (cbn; rewrite Hp; reflexivity).
  assert (Ht2 : trajectory s2 = Some traj) by exact Ht.
  assert (Hw2 : step_wait s2 = Returned w) by exact Hw.
  assert (Hi : 0 <= current_idx s2 <= Py.len traj)
    by (change (current_idx s2) with 0; split; [lia | apply len_nonneg]).
  destruct (run_loop_playing (S (List.length traj)) s2 traj w Hp2 Ht2 Hi Hw2)
    as [H1 [H2 [_ H4]]].
  rewrite H1, H2, H4, !poses_app, Etr, (poses_run_loop _ s2 traj w Hp2 Ht2 Hi Hw2).
  change (current_idx s2) with 0. unfold Py.len.
  split.
  - change (poses (trace_of (toggle (set_current_idx 0 s)))) with (@nil Vec).
    cbn [Z.to_nat skipn app]. f_equal. apply firstn_all2. lia.
  - split; [apply Z.leb_gt; lia|]. split; [lia | reflexivity].
Qed.

Lemma restart_then_toggle_replays_all_witness :
  is_playing vizA_finished = false
  /\ trajectory vizA_finished = Some (r_traj runA)
  /\ step_wait vizA_finished = Returned 0.1%float
  /\ poses (trace_of (restart vizA_finished)
            ++ trace_of (toggle (state_of (restart vizA_finished)))
            ++ trace_of (run_loop 4
                 (state_of (toggle (state_of (restart vizA_finished))))))
     = [row 0%float; row 0%float; row 1%float; row 2%float].
Proof.
  destruct (restart_then_toggle_replays_all vizA_finished (r_traj runA)
              0.1%float eq_refl eq_refl eq_refl) as [H _].
  split; [reflexivity|]. split; [reflexivity|]. split; [reflexivity|].
  exact H.
Defined.

(** ** Seeking again *)

(** X20: [seek] is idempotent while idle: a second [seek] to the same
    index finds the cursor already there, leaves the same fields and makes
    the same collaborator call (or raises the same exception). *)
Theorem seek_twice_same (k : Z) (s : Viz) (traj : Array) :
  trajectory s = Some traj ->
  is_playing s = false ->
  seek k (state_of (seek k s)) =
  (state_of (seek k s), trace_of (seek k s), outcome_of (seek k s)).
Proof.
  intros Ht Hp. rewrite (seek_idle k s traj Ht Hp).
  assert (E : seek k (set_current_idx (clamp k traj) s) =
              match Py.index traj (clamp k traj) with
              | Some cfg =>
                  (set_current_idx (clamp k traj) s, [UpdateCfg cfg], Returned tt)
              | None => (set_current_idx (clamp k traj) s, [], Raised IndexError)
              end)
    by exact (seek_idle k (set_current_idx (clamp k traj) s) traj Ht Hp).
  destruct (Py.index traj (clamp k traj)); exact E.
Qed.

Lemma seek_twice_same_witness :
  trajectory vizA = Some (r_traj runA)
  /\ is_playing vizA = false
  /\ current_idx (state_of (seek 9 vizA)) = 2
  /\ seek 9 (state_of (seek 9 vizA))
     = (state_of (seek 9 vizA), [UpdateCfg (row 2%float)], Returned tt).
Proof.
  split; [reflexivity|]. split; [reflexivity|]. split; [reflexivity|].
  rewrite (seek_twice_same 9 vizA (r_traj runA) eq_refl eq_refl).
  reflexivity.
Defined.

(** ** Saving and stale data *)

(** A stage of [save] that assigns no field can be skipped when looking
    for a call made later in a [save] that returned. *)
Lemma in_trace_after {A B : Type} (m : M A) (k : A -> M B) (s : Viz)
      (e : Event) (b : B) :
  keeps_fields m ->
  (forall a, outcome_of (k a s) = Returned b -> In e (trace_of (k a s))) ->
  outcome_of (bind m k s) = Returned b ->
  In e (trace_of (bind m k s)).
Proof.
  intros Hm Hk. unfold bind. specialize (Hm s).
  destruct (m s) as [[s1 tr1] [a|x]]; unfold state_of in Hm; cbn [fst] in Hm;
    subst s1; [|intros [=]].
  specialize (Hk a). destruct (k a s) as [[s2 tr2] o].
  unfold outcome_of, trace_of in *. cbn [fst snd] in *.
  intros Ho. apply in_or_app. right. exact (Hk Ho).
Qed.

(** A [save] that returns wrote the rows of the loaded trajectory to the
    CSV. *)
Lemma save_returned_wrote (out : Outside) (s : Viz) (traj : Array) :
  trajectory s = Some traj ->
  outcome_of (save out s) = Returned tt ->
  In (WriteCsv (rows traj)) (trace_of (save out s)).
Proof.
  intros Ht. unfold save. rewrite bind_get, Ht.
  do 14 (apply in_trace_after;
         [ first [ apply keeps_fields_attempt
                 | apply keeps_fields_the_errors
                 | apply keeps_fields_plot_column
                 | apply keeps_fields_for_each; intros ?;
                   apply keeps_fields_bind;
                   [ first [apply keeps_fields_the_trajectory
                           | apply keeps_fields_the_torques]
                   | intros ?; apply keeps_fields_plot_column ] ]
         | intros ? ]).
  assert (E : (a <- the_trajectory ;;
               attempt out (WriteCsv (rows a)) ;; attempt out PrintSaved) s =
              match refuses out (WriteCsv (rows traj)) with
              | Some x => (s, [], Raised x)
              | None =>
                  (state_of (attempt out PrintSaved s),
                   WriteCsv (rows traj) :: trace_of (attempt out PrintSaved s),
                   outcome_of (attempt out PrintSaved s))
              end).
  { unfold bind at 1. rewrite get_trajectory_spec, Ht.
    unfold attempt at 1.
    destruct (refuses out (WriteCsv (rows traj))); [reflexivity|].
    rewrite bind_call. reflexivity. }
  rewrite E.
  destruct (refuses out (WriteCsv (rows traj))); [intros [=]|].
  intros _. left. reflexivity.
Qed.

(** X21: replacing a stored run while other runs are stored does not
    reload it: the store returns the new run under the name, but the loaded
    trajectory and the cursor are the old ones, the call returns, and a
    [save] that returns has written the rows of the old trajectory. *)
Theorem add_run_leaves_loaded_data (name : string) (r : Run) (s : Viz)
        (traj : Array) :
  sole_or_empty name (runs s) = false ->
  trajectory s = Some traj ->
  Py.dict_get name (runs (state_of (add_run name r s))) = Some r
  /\ trajectory (state_of (add_run name r s)) = Some traj
  /\ current_idx (state_of (add_run name r s)) = current_idx s
  /\ outcome_of (add_run name r s) = Returned tt
  /\ forall out : Outside,
       outcome_of (save out (state_of (add_run name r s))) = Returned tt ->
       In (WriteCsv (rows traj))
          (trace_of (save out (state_of (add_run name r s)))).
Proof.
  intros Hs Ht.
  split; [rewrite add_run_runs; apply dict_get_set_same|].
  rewrite add_run_unfold. cbv zeta.
  rewrite (dict_set_several name r (runs s) Hs).
  unfold state_of at 1 2 3 4, outcome_of at 1. cbn [fst snd].
  split; [exact Ht|]. split; [reflexivity|]. split; [reflexivity|].
  intros out. apply save_returned_wrote. exact Ht.
Qed.

Lemma add_run_leaves_loaded_data_witness :
  sole_or_empty "A" (runs vizAB) = false
  /\ trajectory vizAB = Some (r_traj runA)
  /\ Py.dict_get "A" (runs (state_of (add_run "A" runB vizAB))) = Some runB
  /\ trajectory (state_of (add_run "A" runB vizAB)) = Some (r_traj runA)
  /\ current_idx (state_of (add_run "A" runB vizAB)) = 2
  /\ In (WriteCsv (rows (r_traj runA)))
        (trace_of (save willing (state_of (add_run "A" runB vizAB)))).
Proof.
  destruct (add_run_leaves_loaded_data "A" runB vizAB (r_traj runA)
              eq_refl eq_refl) as [H1 [H2 [H3 [_ H5]]]].
  split; [reflexivity|]. split; [reflexivity|].
  split; [exact H1|]. split; [exact H2|]. split; [rewrite H3; reflexivity|].
  apply (H5 willing). reflexivity.
Defined.

(** X22: selecting a name right after adding a run under it loads that
    run, whatever was stored or loaded before: its four arrays, the cursor
    at 0 and the interval of its timestamps. *)
Theorem select_after_add_loads_run (name : string) (r : Run) (s : Viz) :
  let s' := state_of (switch_run name (state_of (add_run name r s))) in
  trajectory s' = Some (r_traj r)
  /\ torques s' = Some (r_torques r)
  /\ errors s' = Some (r_errors r)
  /\ times s' = Some (r_times r)
  /\ current_idx s' = 0
  /\ dt s' = interval_of (r_times r).
Proof.
  cbv zeta. rewrite switch_run_state, add_run_runs, dict_get_set_same.
  destruct (rows (r_traj r)) eqn:E; repeat split.
Qed.

(** ** Every state the visualizer can be in *)

(** X23: whatever callbacks and loop passes follow [__init__], in whatever
    order and even when some of them raise: stored names are distinct, the
    dropdown offers them once a run is stored, the button's label follows
    [is_playing], the loaded arrays and [dt] go together, the plots held
    are the first few of the three plots of one run, the cursor is in
    [0, N], and [speed] is still 1.0. *)
Theorem reachable_state_invariants (acts : list Action) :
  keys_unique (run_actions acts init)
  /\ options_mirror_store (run_actions acts init)
  /\ label_agrees (run_actions acts init)
  /\ loaded_coherent (run_actions acts init)
  /\ plots_of_one_run (run_actions acts init)
  /\ cursor_in_range (run_actions acts init)
  /\ speed (run_actions acts init) = 1%float.
Proof.
  split; [apply (run_actions_preserves _ keys_unique_step); constructor|].
  split; [apply (run_actions_preserves _ options_mirror_store_step);
          left; reflexivity|].
  split; [apply (run_actions_preserves _ label_agrees_step); reflexivity|].
  split; [apply (run_actions_preserves _ loaded_coherent_step); reflexivity|].
  split; [apply (run_actions_preserves _ plots_of_one_run_step);
          split; [exists "", 0%nat; reflexivity | intros H; exfalso; apply H;
                                                  reflexivity]|].
  split.
  - apply (run_actions_preserves _ cursor_in_range_step).
    split; [cbn; lia | intros traj H; discriminate H].
  - apply (run_actions_preserves (fun s => speed s = 1%float)); [|reflexivity].
    intros s s' Hm H. rewrite (speed_step s s' Hm). exact H.
Qed.
